(** * pywebview, GTK/WebKit2 backend ([webview/platforms/gtk.py])

    A shallow embedding of the window-control core of the backend: the
    [BrowserView] class (construction, teardown, close confirmation, the
    title side channel, synchronous [evaluate_js], file dialogs) and the
    module-level command router ([move], [resize], [create_file_dialog]).

    Modelling decisions.
    - Python objects live in heaps indexed by addresses ([addr]); a field
      that holds an object holds its address, so aliasing is kept
      ([self.loaded] is the window's own [loaded] event, the semaphore of a
      table entry is the semaphore the calling thread waits on).
    - Python dictionaries are [gmap]s.
    - Code is written in a small free monad [Prog] whose operations are
      reading and writing the global state, raising, blocking on a
      condition and pumping the UI loop.  [run] executes a program up to
      its next suspension; what runs between two suspensions is one atomic
      step of the thread that runs it.
    - Toolkit and renderer calls are recorded in the [trace] of the state;
      what the user or the renderer answers is an input of the model.
    - Strings are byte strings (UTF-8).  Floating point numbers are kept as
      their lexeme. *)

From Stdlib Require Import ZArith Ascii String DecimalString Bool Lia.
From stdpp Require Import gmap strings list.

(** ** Strings *)

(** The double quote character, as a one-character string. *)
Definition dq : string := String "034"%char EmptyString.

Fixpoint strip_prefix (p s : string) : option string :=
  match p, s with
  | EmptyString, _ => Some s
  | String a p', String b s' => if Ascii.eqb a b then strip_prefix p' s' else None
  | String _ _, EmptyString => None
  end.

(** [sub in s] on Python strings. *)
Fixpoint str_contains (sub s : string) : bool :=
  if String.prefix sub s then true
  else match s with
       | EmptyString => false
       | String _ s' => str_contains sub s'
       end.

(** Python's iteration over a string: its one-character strings. *)
Fixpoint str_chars (s : string) : list string :=
  match s with
  | EmptyString => []
  | String c s' => String c EmptyString :: str_chars s'
  end.

(** [str(n)] for an integer. *)
Definition str_of_Z (z : Z) : string := NilZero.string_of_int (Z.to_int z).

(** ** Python values *)

Abbreviation addr := nat.

#[warnings="-register-all"]
Inductive pyval : Type :=
| PyNone
| PyBool (b : bool)
| PyInt (z : Z)
| PyFloat (lexeme : string)
| PyStr (s : string)
| PyList (l : list pyval)
| PyTuple (l : list pyval)
| PyDict (d : list (string * pyval)).

(** Exceptions, with the text Python gives them where the text tells the
    raising sites apart. *)
Inductive exn : Type :=
| JSONDecodeError
| ValueError
| TypeError (msg : string)
| KeyError (key : pyval)
| NameError (name : string).

Inductive exn_class : Type :=
| cls_ValueError | cls_JSONDecodeError | cls_TypeError | cls_KeyError | cls_NameError.

(** [isinstance(e, cls)]: [json.JSONDecodeError] derives from [ValueError]. *)
Definition isinstance (e : exn) (c : exn_class) : bool :=
  match e, c with
  | JSONDecodeError, (cls_JSONDecodeError | cls_ValueError) => true
  | ValueError, cls_ValueError => true
  | TypeError _, cls_TypeError => true
  | KeyError _, cls_KeyError => true
  | NameError _, cls_NameError => true
  | _, _ => false
  end.

Inductive res (A : Type) : Type :=
| Ok (a : A)
| Err (e : exn).
Arguments Ok {A} a.
Arguments Err {A} e.

(** Dictionaries decoded from JSON: string keys, in insertion order, a key
    assigned twice keeps its place and takes the later value. *)
Fixpoint dict_get (k : string) (d : list (string * pyval)) : option pyval :=
  match d with
  | [] => None
  | (k', v) :: d' => if String.eqb k k' then Some v else dict_get k d'
  end.

Fixpoint dict_set (k : string) (v : pyval) (d : list (string * pyval)) : list (string * pyval) :=
  match d with
  | [] => [(k, v)]
  | (k', v') :: d' => if String.eqb k k' then (k, v) :: d' else (k', v') :: dict_set k v d'
  end.

Definition py_eq_str (v : pyval) (s : string) : bool :=
  match v with
  | PyStr t => String.eqb t s
  | _ => false
  end.

Definition type_name (v : pyval) : string :=
  match v with
  | PyNone => "NoneType"
  | PyBool _ => "bool"
  | PyInt _ => "int"
  | PyFloat _ => "float"
  | PyStr _ => "str"
  | PyList _ => "list"
  | PyTuple _ => "tuple"
  | PyDict _ => "dict"
  end.

(** [key in v] for a string [key]: key membership on a dictionary, element
    membership on a list or tuple, substring test on a string; the other
    types are not containers. *)
Definition py_contains (key : string) (v : pyval) : res bool :=
  match v with
  | PyDict d => Ok (bool_decide (is_Some (dict_get key d)))
  | PyList l | PyTuple l => Ok (existsb (fun x => py_eq_str x key) l)
  | PyStr s => Ok (str_contains key s)
  | _ => Err (TypeError ("argument of type '" +:+ type_name v +:+ "' is not iterable"))
  end.

(** [v[key]] for a string [key]. *)
Definition py_getitem (v : pyval) (key : string) : res pyval :=
  match v with
  | PyDict d => match dict_get key d with
                | Some x => Ok x
                | None => Err (KeyError (PyStr key))
                end
  | PyStr _ => Err (TypeError "string indices must be integers")
  | PyList _ => Err (TypeError "list indices must be integers or slices, not str")
  | PyTuple _ => Err (TypeError "tuple indices must be integers or slices, not str")
  | _ => Err (TypeError ("'" +:+ type_name v +:+ "' object is not subscriptable"))
  end.

(** [tuple(v)]. *)
Definition py_tuple (v : pyval) : res pyval :=
  match v with
  | PyList l | PyTuple l => Ok (PyTuple l)
  | PyStr s => Ok (PyTuple (PyStr <$> str_chars s))
  | PyDict d => Ok (PyTuple ((fun kv => PyStr kv.1) <$> d))
  | _ => Err (TypeError ("'" +:+ type_name v +:+ "' object is not iterable"))
  end.

(** ** [json.loads]

    The decoder of Python's [json] module on a string: JSON's grammar with
    Python's extensions ([NaN], [Infinity], [-Infinity]), strict strings
    (no raw control character) and the later of two equal keys.  An escape
    [\uXXXX] is stored as UTF-8, a surrogate pair as one code point.  The
    interpreter's resource limits (recursion depth) are not modelled. *)

Definition is_ws (c : ascii) : bool :=
  (Ascii.eqb c " " || Ascii.eqb c "009" || Ascii.eqb c "010" || Ascii.eqb c "013")%char.

Fixpoint skip_ws (s : string) : string :=
  match s with
  | String c r => if is_ws c then skip_ws r else s
  | EmptyString => s
  end.

Definition digit_val (c : ascii) : option N :=
  let n := N_of_ascii c in
  if ((48 <=? n) && (n <=? 57))%N then Some (n - 48)%N else None.

Definition hex_val (c : ascii) : option N :=
  let n := N_of_ascii c in
  if ((48 <=? n) && (n <=? 57))%N then Some (n - 48)%N
  else if ((97 <=? n) && (n <=? 102))%N then Some (n - 87)%N
  else if ((65 <=? n) && (n <=? 70))%N then Some (n - 55)%N
  else None.

Definition hex4 (a b c d : ascii) : option N :=
  match hex_val a, hex_val b, hex_val c, hex_val d with
  | Some x, Some y, Some z, Some t => Some (((x * 16 + y) * 16 + z) * 16 + t)%N
  | _, _, _, _ => None
  end.

Definition byte (n : N) : string := String (ascii_of_N n) EmptyString.

Definition utf8_encode (n : N) : string :=
  if (n <? 128)%N then byte n
  else if (n <? 2048)%N then byte (192 + n / 64) +:+ byte (128 + n mod 64)
  else if (n <? 65536)%N then
    byte (224 + n / 4096) +:+ byte (128 + (n / 64) mod 64) +:+ byte (128 + n mod 64)
  else
    byte (240 + n / 262144) +:+ byte (128 + (n / 4096) mod 64)
      +:+ byte (128 + (n / 64) mod 64) +:+ byte (128 + n mod 64).

Definition is_high_surrogate (n : N) : bool := ((55296 <=? n) && (n <=? 56319))%N.
Definition is_low_surrogate (n : N) : bool := ((56320 <=? n) && (n <=? 57343))%N.

Definition flush_surrogate (hi : option N) : string :=
  match hi with
  | Some h => utf8_encode h
  | None => EmptyString
  end.

(** The body of a string literal after its opening quote: the decoded text
    and what follows the closing quote.  [hi] is a high surrogate read by
    the previous escape and not yet paired. *)
Fixpoint scan_string (s : string) (hi : option N) : option (string * string) :=
  match s with
  | EmptyString => None
  | String c r =>
    if Ascii.eqb c "034" then Some (flush_surrogate hi, r)
    else if Ascii.eqb c "\" then
      match r with
      | String e r' =>
        let plain (x : N) :=
          match scan_string r' None with
          | Some (body, rest) => Some (flush_surrogate hi +:+ byte x +:+ body, rest)
          | None => None
          end in
        if Ascii.eqb e "034" then plain 34%N
        else if Ascii.eqb e "\" then plain 92%N
        else if Ascii.eqb e "/" then plain 47%N
        else if Ascii.eqb e "b" then plain 8%N
        else if Ascii.eqb e "f" then plain 12%N
        else if Ascii.eqb e "n" then plain 10%N
        else if Ascii.eqb e "r" then plain 13%N
        else if Ascii.eqb e "t" then plain 9%N
        else if Ascii.eqb e "u" then
          match r' with
          | String h1 (String h2 (String h3 (String h4 r4))) =>
            match hex4 h1 h2 h3 h4 with
            | Some n =>
              match hi with
              | Some h =>
                if is_low_surrogate n then
                  match scan_string r4 None with
                  | Some (body, rest) =>
                    Some (utf8_encode (65536 + (h - 55296) * 1024 + (n - 56320)) +:+ body, rest)
                  | None => None
                  end
                else if is_high_surrogate n then
                  match scan_string r4 (Some n) with
                  | Some (body, rest) => Some (utf8_encode h +:+ body, rest)
                  | None => None
                  end
                else
                  match scan_string r4 None with
                  | Some (body, rest) => Some (utf8_encode h +:+ utf8_encode n +:+ body, rest)
                  | None => None
                  end
              | None =>
                if is_high_surrogate n then scan_string r4 (Some n)
                else
                  match scan_string r4 None with
                  | Some (body, rest) => Some (utf8_encode n +:+ body, rest)
                  | None => None
                  end
              end
            | None => None
            end
          | _ => None
          end
        else None
      | EmptyString => None
      end
    else if (N_of_ascii c <? 32)%N then None
    else
      match scan_string r None with
      | Some (body, rest) => Some (flush_surrogate hi +:+ String c body, rest)
      | None => None
      end
  end.

Fixpoint take_digits (s : string) : string * string :=
  match s with
  | String c r =>
    match digit_val c with
    | Some _ => let '(d, rest) := take_digits r in (String c d, rest)
    | None => (EmptyString, s)
    end
  | EmptyString => (EmptyString, s)
  end.

Fixpoint Z_of_digits (s : string) (acc : Z) : Z :=
  match s with
  | String c r =>
    match digit_val c with
    | Some d => Z_of_digits r (10 * acc + Z.of_N d)
    | None => acc
    end
  | EmptyString => acc
  end.

(** The integer part [0|[1-9][0-9]*]. *)
Definition scan_int (s : string) : option (string * string) :=
  match s with
  | String "0" r => Some ("0", r)
  | _ => match take_digits s with
         | (EmptyString, _) => None
         | (d, rest) => Some (d, rest)
         end
  end.

(** The optional fraction [\.[0-9]+]. *)
Definition scan_frac (s : string) : string * string :=
  match s with
  | String "." r =>
    match take_digits r with
    | (EmptyString, _) => (EmptyString, s)
    | (d, rest) => ("." +:+ d, rest)
    end
  | _ => (EmptyString, s)
  end.

(** The optional exponent [[eE][-+]?[0-9]+]. *)
Definition scan_exp (s : string) : string * string :=
  match s with
  | String e r =>
    if (Ascii.eqb e "e" || Ascii.eqb e "E")%char then
      let '(sign, r') :=
        match r with
        | String "+" r' => ("+", r')
        | String "-" r' => ("-", r')
        | _ => (EmptyString, r)
        end in
      match take_digits r' with
      | (EmptyString, _) => (EmptyString, s)
      | (d, rest) => (String e sign +:+ d, rest)
      end
    else (EmptyString, s)
  | EmptyString => (EmptyString, s)
  end.

Definition scan_number (s : string) : option (pyval * string) :=
  let '(neg, s1) :=
    match s with
    | String "-" r => (true, r)
    | _ => (false, s)
    end in
  match scan_int s1 with
  | Some (i, s2) =>
    let '(f, s3) := scan_frac s2 in
    let '(e, s4) := scan_exp s3 in
    match f, e with
    | EmptyString, EmptyString =>
      Some (PyInt (if neg then - Z_of_digits i 0 else Z_of_digits i 0), s4)
    | _, _ => Some (PyFloat ((if neg then "-" else EmptyString) +:+ i +:+ f +:+ e), s4)
    end
  | None => None
  end.

Definition scan_constant (s : string) : option (pyval * string) :=
  match strip_prefix "null" s with Some r => Some (PyNone, r) | None =>
  match strip_prefix "true" s with Some r => Some (PyBool true, r) | None =>
  match strip_prefix "false" s with Some r => Some (PyBool false, r) | None =>
  match strip_prefix "NaN" s with Some r => Some (PyFloat "nan", r) | None =>
  match strip_prefix "Infinity" s with Some r => Some (PyFloat "inf", r) | None =>
  match strip_prefix "-Infinity" s with Some r => Some (PyFloat "-inf", r) | None =>
  scan_number s
  end end end end end end.

(** One JSON value at the head of [s] (no leading blank), the members of
    an array after a value is due, and the members of an object after a
    key is due. *)
Fixpoint scan_value (fuel : nat) (s : string) {struct fuel} : option (pyval * string) :=
  match fuel with
  | O => None
  | S fuel =>
    match s with
    | String "034" r =>
      match scan_string r None with
      | Some (t, rest) => Some (PyStr t, rest)
      | None => None
      end
    | String "[" r =>
      match skip_ws r with
      | String "]" rest => Some (PyList [], rest)
      | r' => match scan_items fuel r' with
              | Some (l, rest) => Some (PyList l, rest)
              | None => None
              end
      end
    | String "{" r =>
      match skip_ws r with
      | String "}" rest => Some (PyDict [], rest)
      | r' => match scan_pairs fuel r' [] with
              | Some (d, rest) => Some (PyDict d, rest)
              | None => None
              end
      end
    | _ => scan_constant s
    end
  end
with scan_items (fuel : nat) (s : string) {struct fuel} : option (list pyval * string) :=
  match fuel with
  | O => None
  | S fuel =>
    match scan_value fuel s with
    | Some (v, r) =>
      match skip_ws r with
      | String "," r' =>
        match scan_items fuel (skip_ws r') with
        | Some (l, rest) => Some (v :: l, rest)
        | None => None
        end
      | String "]" rest => Some ([v], rest)
      | _ => None
      end
    | None => None
    end
  end
with scan_pairs (fuel : nat) (s : string) (d : list (string * pyval)) {struct fuel}
  : option (list (string * pyval) * string) :=
  match fuel with
  | O => None
  | S fuel =>
    match s with
    | String "034" r =>
      match scan_string r None with
      | Some (k, r1) =>
        match skip_ws r1 with
        | String ":" r2 =>
          match scan_value fuel (skip_ws r2) with
          | Some (v, r3) =>
            match skip_ws r3 with
            | String "," r4 => scan_pairs fuel (skip_ws r4) (dict_set k v d)
            | String "}" rest => Some (dict_set k v d, rest)
            | _ => None
            end
          | None => None
          end
        | _ => None
        end
      | None => None
      end
    | _ => None
    end
  end.

(** [json.loads(s)] for a string [s]. *)
Definition json_loads (s : string) : res pyval :=
  match scan_value (2 * String.length s + 2) (skip_ws s) with
  | Some (v, rest) =>
    match skip_ws rest with
    | EmptyString => Ok v
    | _ => Err JSONDecodeError
    end
  | None => Err JSONDecodeError
  end.

(** [json.loads(x)] for any object: only strings are decoded. *)
Definition json_loads_obj (x : pyval) : res pyval :=
  match x with
  | PyStr s => json_loads s
  | _ => Err (TypeError ("the JSON object must be str, bytes or bytearray, not " +:+ type_name x))
  end.

(** ** Objects and the global state *)

(** The four lifecycle signals of a window. *)
Inductive Signal : Type := Shown | Loaded | Closing | Closed.

(** A [webview.Window]: the attributes this backend reads, and its four
    events (set or not). *)
Record Window : Type := {
  window_uid : string;
  confirm_close : bool;
  fullscreen : bool;
  window_text_select : bool;
  real_url : option string;
  html : string;
  shown : bool;
  loaded : bool;
  closing : bool;
  closed : bool;
}.

(** An entry of [js_results]: [{'semaphore': ..., 'result': ...}]. *)
Record js_entry : Type := {
  semaphore : addr;
  result_slot : pyval;
}.

(** The callback connected to the native window's [delete-event]. *)
Inductive Handler : Type := H_on_destroy | H_close_window.

(** A [BrowserView] object.  [pywebview_window] is the address of its
    [Window]; [self.shown] and [self.loaded] are that window's events.
    [delete_event] is the handler connected to the native window's
    [delete-event], if any; [destroyed] says whether
    [self.window.destroy()] ran. *)
Record BrowserView : Type := {
  uid : string;
  pywebview_window : addr;
  is_fullscreen : bool;
  js_results : gmap string js_entry;
  js_bridge_uid : string;
  text_select : bool;
  delete_event : option Handler;
  destroyed : bool;
}.

Inductive DialogType : Type := OPEN_DIALOG | FOLDER_DIALOG | SAVE_DIALOG.

Inductive ResponseType : Type := RESPONSE_OK | RESPONSE_CANCEL | RESPONSE_DELETE_EVENT.

Inductive FileChooserAction : Type := ACTION_OPEN | ACTION_SAVE | ACTION_SELECT_FOLDER.

(** What the user does with a dialog that is run: the button, and for a
    file chooser the file name ([get_filename()], [None] when there is
    none) and the selection ([get_filenames()], in selection order). *)
Record UserInput : Type := {
  response : ResponseType;
  filename : option string;
  filenames : list string;
}.

(** Callables handed to [glib.idle_add], with the variables they close
    over. *)
Inductive Task : Type :=
| T_evaluate_js (self : addr) (unique_id : string) (result_semaphore : addr) (script : string)
| T_create_bridge (self : addr)
| T_destroy_window (uid : string)
| T_resize (width height : Z) (uid : string)
| T_move (x y : Z) (uid : string)
| T_create_file_dialog (dialog_type : DialogType) (directory : string) (allow_multiple : bool)
    (save_filename : string) (file_types : list string) (uid : string) (child_conn : addr).

(** Tuples of a callable and its arguments, put on the worker's inbox
    [mp_idle_add]. *)
Inductive Command : Type :=
| Cmd_destroy_window (uid : string)
| Cmd_resize (width height : Z) (uid : string)
| Cmd_move (x y : Z) (uid : string)
| Cmd_idle_add (t : Task).

(** Calls into the toolkit, the renderer and the logger, and the steps of
    teardown, in the order they happen. *)
Inductive Event : Type :=
| E_set (win : addr) (s : Signal)
| E_release (sem : addr)
| E_window_destroy (self : addr)
| E_del_instance (uid : string)
| E_windows_remove (win : addr)
| E_main_quit
| E_connect_delete_event (self : addr) (h : Handler)
| E_load_uri (self : addr) (uri : string)
| E_load_html (self : addr) (content : string)
| E_run_javascript (self : addr) (script : string) (callback : option (string * addr))
| E_log_debug (msg : string)
| E_message_dialog (self : addr) (flags : Z) (message_key : string)
| E_file_chooser (self : addr) (action : FileChooserAction) (title_key : string)
    (select_multiple : bool) (directory : string) (current_name : option string)
| E_dialog_destroy
| E_window_fullscreen (self : addr) (on : bool)
| E_window_resize (self : addr) (width height : Z)
| E_window_move (self : addr) (x y : Z)
| E_uncaught (e : exn).

Record World : Type := {
  instances : gmap string addr;          (* BrowserView.instances *)
  views : gmap addr BrowserView;         (* the BrowserView objects *)
  sessions : gmap addr Window;           (* the Window objects *)
  windows : list addr;                   (* webview.windows *)
  sems : gmap addr nat;                  (* Semaphore objects: permits *)
  pipes : gmap addr (list pyval);        (* Pipe objects: objects in flight *)
  main_level : nat;                      (* gtk.main_level() *)
  quitting : bool;                       (* gtk.main_quit() called, gtk.main() not yet back *)
  idle : list Task;                      (* glib idle sources, oldest first *)
  mp_idle_add : option (list Command);   (* the global Queue, once defined *)
  trace : list Event;
}.

Definition set_instances (f : gmap string addr -> gmap string addr) (w : World) : World :=
  {| instances := f (instances w); views := views w; sessions := sessions w;
     windows := windows w; sems := sems w; pipes := pipes w; main_level := main_level w;
     quitting := quitting w; idle := idle w; mp_idle_add := mp_idle_add w; trace := trace w |}.

Definition set_views (f : gmap addr BrowserView -> gmap addr BrowserView) (w : World) : World :=
  {| instances := instances w; views := f (views w); sessions := sessions w;
     windows := windows w; sems := sems w; pipes := pipes w; main_level := main_level w;
     quitting := quitting w; idle := idle w; mp_idle_add := mp_idle_add w; trace := trace w |}.

Definition set_sessions (f : gmap addr Window -> gmap addr Window) (w : World) : World :=
  {| instances := instances w; views := views w; sessions := f (sessions w);
     windows := windows w; sems := sems w; pipes := pipes w; main_level := main_level w;
     quitting := quitting w; idle := idle w; mp_idle_add := mp_idle_add w; trace := trace w |}.

Definition set_windows (f : list addr -> list addr) (w : World) : World :=
  {| instances := instances w; views := views w; sessions := sessions w;
     windows := f (windows w); sems := sems w; pipes := pipes w; main_level := main_level w;
     quitting := quitting w; idle := idle w; mp_idle_add := mp_idle_add w; trace := trace w |}.

Definition set_sems (f : gmap addr nat -> gmap addr nat) (w : World) : World :=
  {| instances := instances w; views := views w; sessions := sessions w;
     windows := windows w; sems := f (sems w); pipes := pipes w; main_level := main_level w;
     quitting := quitting w; idle := idle w; mp_idle_add := mp_idle_add w; trace := trace w |}.

Definition set_pipes (f : gmap addr (list pyval) -> gmap addr (list pyval)) (w : World) : World :=
  {| instances := instances w; views := views w; sessions := sessions w;
     windows := windows w; sems := sems w; pipes := f (pipes w); main_level := main_level w;
     quitting := quitting w; idle := idle w; mp_idle_add := mp_idle_add w; trace := trace w |}.

Definition set_main_level (n : nat) (w : World) : World :=
  {| instances := instances w; views := views w; sessions := sessions w;
     windows := windows w; sems := sems w; pipes := pipes w; main_level := n;
     quitting := quitting w; idle := idle w; mp_idle_add := mp_idle_add w; trace := trace w |}.

Definition set_quitting (b : bool) (w : World) : World :=
  {| instances := instances w; views := views w; sessions := sessions w;
     windows := windows w; sems := sems w; pipes := pipes w; main_level := main_level w;
     quitting := b; idle := idle w; mp_idle_add := mp_idle_add w; trace := trace w |}.

Definition set_idle (f : list Task -> list Task) (w : World) : World :=
  {| instances := instances w; views := views w; sessions := sessions w;
     windows := windows w; sems := sems w; pipes := pipes w; main_level := main_level w;
     quitting := quitting w; idle := f (idle w); mp_idle_add := mp_idle_add w; trace := trace w |}.

Definition set_mp_idle_add (q : option (list Command)) (w : World) : World :=
  {| instances := instances w; views := views w; sessions := sessions w;
     windows := windows w; sems := sems w; pipes := pipes w; main_level := main_level w;
     quitting := quitting w; idle := idle w; mp_idle_add := q; trace := trace w |}.

Definition add_trace (evs : list Event) (w : World) : World :=
  {| instances := instances w; views := views w; sessions := sessions w;
     windows := windows w; sems := sems w; pipes := pipes w; main_level := main_level w;
     quitting := quitting w; idle := idle w; mp_idle_add := mp_idle_add w;
     trace := trace w ++ evs |}.

(** ** Programs *)

(** What a thread can block on: an event being set ([Event.wait]), a
    semaphore having a permit ([Semaphore.acquire]), a pipe holding an
    object ([Connection.recv]). *)
Inductive Cond : Type :=
| C_event (win : addr) (s : Signal)
| C_sem (sem : addr)
| C_pipe (conn : addr).

Definition signal_of (win : Window) (s : Signal) : bool :=
  match s with
  | Shown => shown win
  | Loaded => loaded win
  | Closing => closing win
  | Closed => closed win
  end.

Definition sem_value (w : World) (sem : addr) : nat := default 0 (sems w !! sem).

Definition holds (c : Cond) (w : World) : bool :=
  match c with
  | C_event win s => match sessions w !! win with
                     | Some o => signal_of o s
                     | None => false
                     end
  | C_sem sem => negb (Nat.eqb (sem_value w sem) 0)
  | C_pipe conn => match pipes w !! conn with
                   | Some (_ :: _) => true
                   | _ => false
                   end
  end.

Inductive Prog (A : Type) : Type :=
| Ret (a : A)
| Raise (e : exn)
| Get (k : World -> Prog A)
| Put (w : World) (k : Prog A)
| Wait (c : Cond) (k : Prog A)
| Pump (k : Prog A).
Arguments Ret {A} a.
Arguments Raise {A} e.
Arguments Get {A} k.
Arguments Put {A} w k.
Arguments Wait {A} c k.
Arguments Pump {A} k.

Fixpoint bind {A B : Type} (p : Prog A) (f : A -> Prog B) : Prog B :=
  match p with
  | Ret a => f a
  | Raise e => Raise e
  | Get k => Get (fun w => bind (k w) f)
  | Put w k => Put w (bind k f)
  | Wait c k => Wait c (bind k f)
  | Pump k => Pump (bind k f)
  end.

Declare Scope prog_scope.
Delimit Scope prog_scope with prog.
Bind Scope prog_scope with Prog.
Notation "x <- p ;; q" := (bind p (fun x => q))
  (at level 100, p at next level, q at level 200, right associativity) : prog_scope.
Notation "p ;; q" := (bind p (fun _ => q))
  (at level 100, q at level 200, right associativity) : prog_scope.
Open Scope prog_scope.

(** Where a program stands after it ran as far as it can. *)
Inductive Status (A : Type) : Type :=
| Done (a : A) (w : World)
| Failed (e : exn) (w : World)
| Blocked (c : Cond) (k : Prog A) (w : World)
| Pumping (k : Prog A) (w : World).
Arguments Done {A} a w.
Arguments Failed {A} e w.
Arguments Blocked {A} c k w.
Arguments Pumping {A} k w.

Fixpoint run {A : Type} (p : Prog A) (w : World) : Status A :=
  match p with
  | Ret a => Done a w
  | Raise e => Failed e w
  | Get k => run (k w) w
  | Put w' k => run k w'
  | Wait c k => if holds c w then run k w else Blocked c k w
  | Pump k => Pumping k w
  end.

Definition get : Prog World := Get Ret.
Definition modify (f : World -> World) : Prog unit := Get (fun w => Put (f w) (Ret tt)).
Definition lift {A : Type} (r : res A) : Prog A :=
  match r with
  | Ok a => Ret a
  | Err e => Raise e
  end.
Definition log (ev : Event) : Prog unit := modify (add_trace [ev]).

Fixpoint for_each {A : Type} (l : list A) (body : A -> Prog unit) : Prog unit :=
  match l with
  | [] => Ret tt
  | x :: l' => body x ;; for_each l' body
  end.

(** ** Objects in the heaps *)

(** An address always holds an object in Python; a program that reads an
    address with none has no behaviour there; the model stops it with
    [KeyError (PyInt a)], which no proved statement relies on: they all
    assume the object. *)
Definition the_view (self : addr) : Prog BrowserView :=
  w <- get ;;
  match views w !! self with
  | Some v => Ret v
  | None => Raise (KeyError (PyInt (Z.of_nat self)))
  end.

Definition the_window (win : addr) : Prog Window :=
  w <- get ;;
  match sessions w !! win with
  | Some o => Ret o
  | None => Raise (KeyError (PyInt (Z.of_nat win)))
  end.

Definition set_signal (s : Signal) (b : bool) (o : Window) : Window :=
  {| window_uid := window_uid o; confirm_close := confirm_close o; fullscreen := fullscreen o;
     window_text_select := window_text_select o; real_url := real_url o; html := html o;
     shown := if s is Shown then b else shown o;
     loaded := if s is Loaded then b else loaded o;
     closing := if s is Closing then b else closing o;
     closed := if s is Closed then b else closed o |}.

(** [Event.set()], [Event.clear()], [Event.wait()]. *)
Definition event_set (win : addr) (s : Signal) : Prog unit :=
  modify (fun w => add_trace [E_set win s] (set_sessions (alter (set_signal s true) win) w)).
Definition event_clear (win : addr) (s : Signal) : Prog unit :=
  modify (set_sessions (alter (set_signal s false) win)).
Definition event_wait (win : addr) (s : Signal) : Prog unit := Wait (C_event win s) (Ret tt).

(** [Semaphore(n)], [release()], [acquire()]. *)
Definition Semaphore (n : nat) : Prog addr :=
  w <- get ;;
  let a := fresh (dom (sems w)) in
  modify (set_sems <[a := n]>) ;;
  Ret a.
Definition sem_release (sem : addr) : Prog unit :=
  modify (fun w => add_trace [E_release sem] (set_sems <[sem := S (sem_value w sem)]> w)).
Definition sem_acquire (sem : addr) : Prog unit :=
  Wait (C_sem sem) (modify (fun w => set_sems <[sem := pred (sem_value w sem)]> w)).

(** [Pipe(False)]: one object stands for both ends; [send], [recv]. *)
Definition Pipe : Prog addr :=
  w <- get ;;
  let a := fresh (dom (pipes w)) in
  modify (set_pipes <[a := []]>) ;;
  Ret a.
Definition conn_send (conn : addr) (x : pyval) : Prog unit :=
  modify (fun w => set_pipes <[conn := default [] (pipes w !! conn) ++ [x]]> w).
Definition conn_recv (conn : addr) : Prog pyval :=
  Wait (C_pipe conn)
    (w <- get ;;
     match pipes w !! conn with
     | Some (x :: rest) => modify (set_pipes <[conn := rest]>) ;; Ret x
     | _ => Ret PyNone
     end).

(** [glib.idle_add], [gtk.main_level()], [gtk.main_quit()]; a quit is
    pending until [gtk.main()] returns, and there is none to request when
    no main loop runs. *)
Definition idle_add (t : Task) : Prog unit := modify (set_idle (fun q => q ++ [t])).
Definition gtk_main_level : Prog nat := w <- get ;; Ret (main_level w).
Definition gtk_main_quit : Prog unit :=
  modify (fun w => add_trace [E_main_quit]
                    (set_quitting (quitting w || negb (Nat.eqb (main_level w) 0)) w)).

(** [BrowserView.instances[uid]] and [del BrowserView.instances[uid]]. *)
Definition instances_getitem (uid : string) : Prog addr :=
  w <- get ;;
  match instances w !! uid with
  | Some a => Ret a
  | None => Raise (KeyError (PyStr uid))
  end.
Definition instances_delitem (uid : string) : Prog unit :=
  w <- get ;;
  match instances w !! uid with
  | Some _ => modify (fun w => add_trace [E_del_instance uid] (set_instances (delete uid) w))
  | None => Raise (KeyError (PyStr uid))
  end.

Definition update_view (self : addr) (f : BrowserView -> BrowserView) : Prog unit :=
  modify (set_views (alter f self)).

Definition set_js_results (f : gmap string js_entry -> gmap string js_entry) (v : BrowserView)
  : BrowserView :=
  {| uid := uid v; pywebview_window := pywebview_window v; is_fullscreen := is_fullscreen v;
     js_results := f (js_results v); js_bridge_uid := js_bridge_uid v;
     text_select := text_select v; delete_event := delete_event v; destroyed := destroyed v |}.

Definition set_is_fullscreen (b : bool) (v : BrowserView) : BrowserView :=
  {| uid := uid v; pywebview_window := pywebview_window v; is_fullscreen := b;
     js_results := js_results v; js_bridge_uid := js_bridge_uid v;
     text_select := text_select v; delete_event := delete_event v; destroyed := destroyed v |}.

Definition set_delete_event (h : option Handler) (v : BrowserView) : BrowserView :=
  {| uid := uid v; pywebview_window := pywebview_window v; is_fullscreen := is_fullscreen v;
     js_results := js_results v; js_bridge_uid := js_bridge_uid v;
     text_select := text_select v; delete_event := h; destroyed := destroyed v |}.

Definition set_destroyed (v : BrowserView) : BrowserView :=
  {| uid := uid v; pywebview_window := pywebview_window v; is_fullscreen := is_fullscreen v;
     js_results := js_results v; js_bridge_uid := js_bridge_uid v;
     text_select := text_select v; delete_event := delete_event v; destroyed := true |}.

Definition set_result (r : pyval) (e : js_entry) : js_entry :=
  {| semaphore := semaphore e; result_slot := r |}.

(** [self.js_results[key]]; the key is any object, the keys of the table
    are strings, and a list or a dictionary cannot be hashed.  The entry
    comes with the key it is stored under, by which an assignment to one
    of its items finds it again. *)
Definition js_results_getitem (self : addr) (key : pyval) : Prog (string * js_entry) :=
  v <- the_view self ;;
  match key with
  | PyStr k => match js_results v !! k with
               | Some e => Ret (k, e)
               | None => Raise (KeyError key)
               end
  | PyList _ | PyDict _ => Raise (TypeError ("unhashable type: '" +:+ type_name key +:+ "'"))
  | _ => Raise (KeyError key)
  end.

(** [js['result'] = r] on the entry stored under [k]. *)
Definition entry_set_result (self : addr) (k : string) (r : pyval) : Prog unit :=
  update_view self (set_js_results (alter (set_result r) k)).

(** [self.js_results[unique_id] = entry] and [del self.js_results[unique_id]]. *)
Definition js_results_setitem (self : addr) (unique_id : string) (e : js_entry) : Prog unit :=
  update_view self (set_js_results <[unique_id := e]>).
Definition js_results_delitem (self : addr) (unique_id : string) : Prog unit :=
  v <- the_view self ;;
  match js_results v !! unique_id with
  | Some _ => update_view self (set_js_results (delete unique_id))
  | None => Raise (KeyError (PyStr unique_id))
  end.

(** [self.webview.run_javascript(script, None, callback, None)]. *)
Definition run_javascript (self : addr) (script : string) (callback : option (string * addr))
  : Prog unit :=
  log (E_run_javascript self script callback).

(** ** The script side of the bridge *)

(** What a native function called through the bridge returns, as far as
    this backend looks at it: it only takes [str()] of it.  [ROther] is any
    other object, given by its [str()]. *)
Inductive retval : Type :=
| RNone
| RBool (b : bool)
| RInt (z : Z)
| RStr (s : string)
| ROther (text : string).

(** [str(r)]. *)
Definition py_str (r : retval) : string :=
  match r with
  | RNone => "None"
  | RBool true => "True"
  | RBool false => "False"
  | RInt z => str_of_Z z
  | RStr s => s
  | ROther text => text
  end.

(** Modelled from the spec: [escape_string], imported from [webview] and
    absent from the sources; the spec calls it script-literal escaping, by
    which a value survives re-injection as a script literal.  Backslash,
    double quote, line feed and carriage return are written as their
    escapes. *)
Fixpoint escape_string (s : string) : string :=
  match s with
  | EmptyString => EmptyString
  | String c r =>
    (if Ascii.eqb c "\" then "\\"
     else if Ascii.eqb c "034" then "\" +:+ dq
     else if Ascii.eqb c "010" then "\n"
     else if Ascii.eqb c "013" then "\r"
     else String c EmptyString) +:+ escape_string r
  end.

(** Values of the primitive types on the script side. *)
Inductive jsval : Type :=
| JsNull
| JsBool (b : bool)
| JsNum (z : Z)
| JsStr (s : string).

(** The script-side value that is the same value as a native one. *)
Definition js_of (r : retval) : option jsval :=
  match r with
  | RNone => Some JsNull
  | RBool b => Some (JsBool b)
  | RInt z => Some (JsNum z)
  | RStr s => Some (JsStr s)
  | ROther _ => None
  end.

(** The text of a double-quoted script literal after its opening quote:
    its value and what follows the closing quote.  A raw line terminator
    is a syntax error; [\x] and [\u] escapes are left out of the model. *)
Fixpoint js_string_literal (s : string) : option (string * string) :=
  match s with
  | EmptyString => None
  | String c r =>
    if Ascii.eqb c "034" then Some (EmptyString, r)
    else if (Ascii.eqb c "010" || Ascii.eqb c "013")%char then None
    else if Ascii.eqb c "\" then
      match r with
      | String e r' =>
        let out (x : ascii) :=
          match js_string_literal r' with
          | Some (body, rest) => Some (String x body, rest)
          | None => None
          end in
        if Ascii.eqb e "n" then out "010"%char
        else if Ascii.eqb e "r" then out "013"%char
        else if Ascii.eqb e "t" then out "009"%char
        else if Ascii.eqb e "b" then out "008"%char
        else if Ascii.eqb e "f" then out "012"%char
        else if Ascii.eqb e "v" then out "011"%char
        else if Ascii.eqb e "0" then out "000"%char
        else if (Ascii.eqb e "x" || Ascii.eqb e "u" || Ascii.eqb e "010" || Ascii.eqb e "013")%char
        then None
        else out e
      | EmptyString => None
      end
    else
      match js_string_literal r with
      | Some (body, rest) => Some (String c body, rest)
      | None => None
      end
  end.

(** The statement the bridge injects, for the text [lit] between the
    quotes. *)
Definition return_val_statement (lit : string) : string :=
  "pywebview._bridge.return_val = " +:+ dq +:+ lit +:+ dq +:+ ";".

(** Running an injected statement [pywebview._bridge.return_val = "...";]
    on the script side: the value [return_val] takes. *)
Definition js_return_val (code : string) : option jsval :=
  match strip_prefix ("pywebview._bridge.return_val = " +:+ dq) code with
  | Some r =>
    match js_string_literal r with
    | Some (v, ";") => Some (JsStr v)
    | _ => None
    end
  | None => None
  end.

(** [try: p except c1: h1 except c2: h2 ...] in full: the first clause
    whose class the exception is an instance of handles it. *)
Fixpoint find_clause {A : Type} (e : exn) (clauses : list (exn_class * (exn -> Prog A)))
  : option (Prog A) :=
  match clauses with
  | [] => None
  | (c, h) :: rest => if isinstance e c then Some (h e) else find_clause e rest
  end.

Fixpoint try_clauses {A : Type} (p : Prog A) (clauses : list (exn_class * (exn -> Prog A)))
  : Prog A :=
  match p with
  | Ret a => Ret a
  | Raise e => match find_clause e clauses with
               | Some h => h
               | None => Raise e
               end
  | Get k => Get (fun w => try_clauses (k w) clauses)
  | Put w k => Put w (try_clauses k clauses)
  | Wait c k => Wait c (try_clauses k clauses)
  | Pump k => Pump (try_clauses k clauses)
  end.

(** [list.remove(x)]: the first occurrence goes. *)
Fixpoint list_remove (x : addr) (l : list addr) : list addr :=
  match l with
  | [] => []
  | y :: l' => if Nat.eqb x y then l' else y :: list_remove x l'
  end.

(** The names bound at module level in [gtk.py] (imports, assignments,
    classes and functions), for the lookup of a global name.  [views],
    [mp_events] and [mp_idle_add] are bound by [create_window] and the
    state says whether they are. *)
Definition module_globals : list string :=
  [ "sys"; "logging"; "json"; "webbrowser"; "unquote"; "uuid1"; "Event"; "Semaphore";
    "Thread"; "Process"; "Queue"; "Pipe"; "localization"; "_debug"; "_user_agent";
    "OPEN_DIALOG"; "FOLDER_DIALOG"; "SAVE_DIALOG"; "parse_file_type"; "escape_string";
    "windows"; "_multiprocessing"; "Window"; "parse_api_js"; "default_html";
    "js_bridge_call"; "disable_text_select"; "resolve_url"; "logger"; "gi"; "gtk"; "Gdk";
    "glib"; "webkit"; "webkit_ver"; "old_webkit"; "renderer"; "settings"; "BrowserView";
    "proc_func"; "mp_event_loop"; "_create_window"; "create_window"; "set_title";
    "_set_title"; "destroy_window"; "_destroy_window"; "toggle_fullscreen";
    "_toggle_fullscreen"; "set_on_top"; "_set_on_top"; "resize"; "_resize"; "move"; "_move";
    "hide"; "_hide"; "show"; "_show"; "minimize"; "_minimize"; "restore"; "_restore";
    "get_current_url"; "load_url"; "_load_url"; "load_html"; "_load_html";
    "_create_file_dialog"; "create_file_dialog"; "evaluate_js"; "_get_position";
    "get_position"; "_get_size"; "get_size"; "configure_transparency" ].

(** Reading a global name that is neither bound in the module nor a
    builtin raises [NameError]. *)
Definition load_global (name : string) : Prog unit :=
  if existsb (String.eqb name) module_globals then Ret tt else Raise (NameError name).

(** [mp_idle_add.put(cmd)]. *)
Definition mp_idle_add_put (cmd : Command) : Prog unit :=
  w <- get ;;
  match mp_idle_add w with
  | Some q => modify (set_mp_idle_add (Some (q ++ [cmd])))
  | None => Raise (NameError "mp_idle_add")
  end.

(** [gtk.DialogFlags]. *)
Definition MODAL : Z := 1.
Definition DESTROY_WITH_PARENT : Z := 2.

Definition newline : string := String "010"%char EmptyString.

(** ** The backend *)

Section Gtk.

(** The version of WebKit2 read at import, and the flags and helpers the
    module imports from [webview]; [js_bridge_call], [parse_api_js] and
    [disable_text_select] are not part of the sources. *)
Variable webkit_ver : Z * Z * Z.
Variable _multiprocessing : bool.
Variable js_bridge_call : addr -> pyval -> pyval -> pyval -> Prog retval.
Variable parse_api_js : addr -> string -> string.
Variable disable_text_select : string.

(** [old_webkit = webkit_ver[0] < 2 or webkit_ver[1] < 22] *)
Definition old_webkit : bool :=
  let '(major, minor, _) := webkit_ver in
  (major <? 2)%Z || (minor <? 22)%Z.

(** [BrowserView.JSBridge.call] *)
Definition JSBridge_call (window : addr) (func_name param value_id : pyval) : Prog retval :=
  let param := if py_eq_str param "undefined" then PyNone else param in
  js_bridge_call window func_name param value_id.

(** [BrowserView.toggle_fullscreen] *)
Definition BrowserView_toggle_fullscreen (self : addr) : Prog unit :=
  v <- the_view self ;;
  (if is_fullscreen v then log (E_window_fullscreen self false)
   else log (E_window_fullscreen self true)) ;;
  update_view self (set_is_fullscreen (negb (is_fullscreen v))).

(** [BrowserView.__init__], for the window at address [window];
    [bridge_uid] is what [uuid1().hex[:8]] gives the bridge.  Of the calls
    that only style the native window and the renderer, none is kept; the
    registration in [instances], the close-interception policy, the first
    navigation and the fullscreen request are. *)
Definition BrowserView_init (window : addr) (bridge_uid : string) (default_html : string)
  : Prog addr :=
  win <- the_window window ;;
  w <- get ;;
  let self := fresh (dom (views w)) in
  modify (set_views <[self :=
    {| uid := window_uid win; pywebview_window := window; is_fullscreen := false;
       js_results := ∅; js_bridge_uid := bridge_uid; text_select := window_text_select win;
       delete_event := None; destroyed := false |}]>) ;;
  modify (set_instances <[window_uid win := self]>) ;;
  (if confirm_close win then
     update_view self (set_delete_event (Some H_on_destroy)) ;;
     log (E_connect_delete_event self H_on_destroy)
   else
     update_view self (set_delete_event (Some H_close_window)) ;;
     log (E_connect_delete_event self H_close_window)) ;;
  match real_url win with
  | Some url => log (E_load_uri self url)
  | None => if negb (String.eqb (html win) EmptyString) then log (E_load_html self (html win))
            else log (E_load_html self default_html)
  end ;;
  (if fullscreen win then BrowserView_toggle_fullscreen self else Ret tt) ;;
  Ret self.

(** [BrowserView.close_window] *)
Definition close_window (self : addr) : Prog unit :=
  v <- the_view self ;;
  event_set (pywebview_window v) Closing ;;
  for_each (map_to_list (js_results v)).*2 (fun res => sem_release (semaphore res)) ;;
  Pump (Ret tt) ;;
  update_view self set_destroyed ;;
  log (E_window_destroy self) ;;
  v <- the_view self ;;
  instances_delitem (uid v) ;;
  w <- get ;;
  (if bool_decide (pywebview_window v ∈ windows w) then
     modify (fun w => add_trace [E_windows_remove (pywebview_window v)]
                        (set_windows (list_remove (pywebview_window v)) w))
   else Ret tt) ;;
  event_set (pywebview_window v) Closed ;;
  w <- get ;;
  if bool_decide (instances w = ∅) then gtk_main_quit else Ret tt.

(** [BrowserView.on_destroy]; [u] is what the user answers. *)
Definition on_destroy (self : addr) (u : UserInput) : Prog bool :=
  log (E_message_dialog self (Z.land MODAL DESTROY_WITH_PARENT) "global.quitConfirmation") ;;
  let result := response u in
  (if result is RESPONSE_OK then close_window self else Ret tt) ;;
  log E_dialog_destroy ;;
  Ret true.

(** The native window's [delete-event] signal (the user closes the
    window, or [BrowserView.destroy] emits it): the connected handler
    runs; a window with no handler is destroyed by the toolkit. *)
Definition emit_delete_event (self : addr) (u : UserInput) : Prog unit :=
  v <- the_view self ;;
  match delete_event v with
  | Some H_on_destroy => on_destroy self u ;; Ret tt
  | Some H_close_window => close_window self
  | None => update_view self set_destroyed ;; log (E_window_destroy self)
  end.

(** [BrowserView.destroy] *)
Definition destroy (self : addr) (u : UserInput) : Prog unit := emit_delete_event self u.

(** [BrowserView._set_js_api] and its closure [create_bridge] *)
Definition create_bridge (self : addr) : Prog unit :=
  v <- the_view self ;;
  run_javascript self (parse_api_js (pywebview_window v) (js_bridge_uid v)) None ;;
  event_set (pywebview_window v) Loaded.

Definition _set_js_api (self : addr) : Prog unit := idle_add (T_create_bridge self).

(** [BrowserView.on_load_finish]; [finished] says whether the status is
    [LoadEvent.FINISHED].  The fade-in of the renderer is left out. *)
Definition on_load_finish (self : addr) (finished : bool) : Prog unit :=
  if finished then
    v <- the_view self ;;
    (if negb (text_select v) then run_javascript self disable_text_select None else Ret tt) ;;
    _set_js_api self
  else Ret tt.

(** [BrowserView.on_title_change]; [title] is what [webview.get_title()]
    returns, [None] for a document with no title. *)
Definition on_title_change (self : addr) (title : option string) : Prog unit :=
  let log_failure (_ : exn) :=
    log (E_log_debug ("GTK: JSON decode failed:" +:+ newline +:+ " " +:+ default "None" title)) in
  try_clauses
    (js_data <- lift (json_loads_obj (from_option PyStr PyNone title)) ;;
     has_type <- lift (py_contains "type" js_data) ;;
     if negb has_type then Ret tt
     else
       type <- lift (py_getitem js_data "type") ;;
       if py_eq_str type "eval" && old_webkit then
         unique_id <- lift (py_getitem js_data "uid") ;;
         has_result <- lift (py_contains "result" js_data) ;;
         result <- (if has_result then lift (py_getitem js_data "result") else Ret PyNone) ;;
         js <- js_results_getitem self unique_id ;;
         entry_set_result self js.1 result ;;
         sem_release (semaphore js.2)
       else if py_eq_str type "invoke" then
         func_name <- lift (py_getitem js_data "function") ;;
         value_id <- lift (py_getitem js_data "id") ;;
         has_param <- lift (py_contains "param" js_data) ;;
         param <- (if has_param then lift (py_getitem js_data "param") else Ret PyNone) ;;
         v <- the_view self ;;
         return_val <- JSBridge_call (pywebview_window v) func_name param value_id ;;
         let code := return_val_statement (escape_string (py_str return_val)) in
         run_javascript self code None
       else Ret tt)
    [ (cls_ValueError, log_failure); (cls_JSONDecodeError, log_failure) ].

(** [BrowserView.resize] and [BrowserView.move] *)
Definition BrowserView_resize (self : addr) (width height : Z) : Prog unit :=
  log (E_window_resize self width height).
Definition BrowserView_move (self : addr) (x y : Z) : Prog unit :=
  log (E_window_move self x y).

(** [BrowserView.create_file_dialog]; [u] is what the user does with the
    chooser. *)
Definition BrowserView_create_file_dialog (self : addr) (dialog_type : DialogType)
    (directory : string) (allow_multiple : bool) (save_filename : string)
    (file_types : list string) (u : UserInput) : Prog pyval :=
  let '(gtk_dialog_type, title) :=
    match dialog_type with
    | FOLDER_DIALOG => (ACTION_SELECT_FOLDER, "linux.openFolder")
    | OPEN_DIALOG => (ACTION_OPEN, if allow_multiple then "linux.openFiles" else "linux.openFile")
    | SAVE_DIALOG => (ACTION_SAVE, "global.saveFile")
    end in
  log (E_file_chooser self gtk_dialog_type title allow_multiple directory
         (if dialog_type is SAVE_DIALOG then Some save_filename else None)) ;;
  let file_name :=
    if response u is RESPONSE_OK then
      if dialog_type is SAVE_DIALOG then from_option PyStr PyNone (filename u)
      else PyList (PyStr <$> filenames u)
    else PyNone in
  log E_dialog_destroy ;;
  Ret file_name.

(** [BrowserView.load_url] and [BrowserView.load_html] *)
Definition BrowserView_load_url (self : addr) (url : string) : Prog unit :=
  v <- the_view self ;;
  event_clear (pywebview_window v) Loaded ;;
  log (E_load_uri self url).
Definition BrowserView_load_html (self : addr) (content : string) : Prog unit :=
  v <- the_view self ;;
  event_clear (pywebview_window v) Loaded ;;
  log (E_load_html self content).

(** [BrowserView.evaluate_js]: its closures [_evaluate_js] and
    [_callback]; [value] is the string form of the value the renderer
    reports ([value.get_js_value().to_string()]), [None] when it reports
    none. *)
Definition _evaluate_js (self : addr) (unique_id : string) (result_semaphore : addr)
    (script : string) : Prog unit :=
  let callback := if old_webkit then None else Some (unique_id, result_semaphore) in
  run_javascript self script callback.

Definition _callback (self : addr) (unique_id : string) (result_semaphore : addr)
    (value : option string) : Prog unit :=
  js <- js_results_getitem self (PyStr unique_id) ;;
  entry_set_result self js.1 (from_option PyStr PyNone value) ;;
  sem_release result_semaphore.

(** The script the legacy transport submits. *)
Definition eval_wrapper (unique_id script : string) : string :=
  "document.title = JSON.stringify({" +:+ dq +:+ "type" +:+ dq +:+ ": " +:+ dq +:+ "eval" +:+ dq
    +:+ ", " +:+ dq +:+ "uid" +:+ dq +:+ ": " +:+ dq +:+ unique_id +:+ dq
    +:+ ", " +:+ dq +:+ "result" +:+ dq +:+ ": " +:+ script +:+ "})".

(** [BrowserView.evaluate_js]: the conditional expression that decodes
    the stored result. *)
Definition decode_result (result : pyval) : res pyval :=
  if py_eq_str result "undefined" || py_eq_str result "null"
     || (if result is PyNone then true else false)
  then Ok PyNone
  else if py_eq_str result EmptyString then Ok result
  else json_loads_obj result.

(** [BrowserView.evaluate_js], after [result_semaphore.acquire()]. *)
Definition evaluate_js_collect (self : addr) (unique_id : string) : Prog pyval :=
  level <- gtk_main_level ;;
  if Nat.eqb level 0 then Ret PyNone
  else
    js <- js_results_getitem self (PyStr unique_id) ;;
    let result := result_slot js.2 in
    result <- lift (decode_result result) ;;
    js_results_delitem self unique_id ;;
    Ret result.

(** [BrowserView.evaluate_js]; [unique_id] is what [uuid1().hex] gives
    this call. *)
Definition BrowserView_evaluate_js (self : addr) (script : string) (unique_id : string)
  : Prog pyval :=
  result_semaphore <- Semaphore 0 ;;
  js_results_setitem self unique_id {| semaphore := result_semaphore; result_slot := PyNone |} ;;
  let script := if old_webkit then eval_wrapper unique_id script else script in
  v <- the_view self ;;
  event_wait (pywebview_window v) Loaded ;;
  idle_add (T_evaluate_js self unique_id result_semaphore script) ;;
  sem_acquire result_semaphore ;;
  evaluate_js_collect self unique_id.

(** ** The module-level command router *)

Definition _destroy_window (uid : string) : Prog unit := idle_add (T_destroy_window uid).
Definition destroy_window (uid : string) : Prog unit :=
  if _multiprocessing then mp_idle_add_put (Cmd_destroy_window uid) else _destroy_window uid.

Definition _resize (width height : Z) (uid : string) : Prog unit :=
  idle_add (T_resize width height uid).
Definition resize (width height : Z) (uid : string) : Prog unit :=
  if _multiprocessing then mp_idle_add_put (Cmd_resize width height uid)
  else _resize width height uid.

Definition _move (x y : Z) (uid : string) : Prog unit := idle_add (T_move x y uid).

(** [move]: the other branch is the call [_move(title, uid)], whose
    arguments are evaluated before it is made. *)
Definition move (x y : Z) (uid : string) : Prog unit :=
  if _multiprocessing then mp_idle_add_put (Cmd_move x y uid)
  else
    load_global "_move" ;;
    load_global "title" ;;
    Raise (TypeError "_move() missing 1 required positional argument: 'uid'").

(** [_create_file_dialog], under Python 3. *)
Definition _create_file_dialog (dialog_type : DialogType) (directory : string)
    (allow_multiple : bool) (save_filename : string) (file_types : list string)
    (uid : string) (child_conn : addr) (u : UserInput) : Prog unit :=
  self <- instances_getitem uid ;;
  result <- BrowserView_create_file_dialog self dialog_type directory allow_multiple
              save_filename file_types u ;;
  if result is PyNone then conn_send child_conn PyNone
  else
    t <- lift (py_tuple result) ;;
    conn_send child_conn t.

Definition create_file_dialog (dialog_type : DialogType) (directory : string)
    (allow_multiple : bool) (save_filename : string) (file_types : list string)
    (uid : string) : Prog pyval :=
  conn <- Pipe ;;
  (if _multiprocessing then
     mp_idle_add_put (Cmd_idle_add (T_create_file_dialog dialog_type directory allow_multiple
                                      save_filename file_types uid conn))
   else
     idle_add (T_create_file_dialog dialog_type directory allow_multiple
                 save_filename file_types uid conn)) ;;
  conn_recv conn.

Definition evaluate_js (script : string) (uid : string) (unique_id : string) : Prog pyval :=
  self <- instances_getitem uid ;;
  BrowserView_evaluate_js self script unique_id.

(** ** The UI loop and the threads *)

(** An idle callback, run by the UI loop; [u] is what the user does with a
    dialog it opens. *)
Definition run_task (t : Task) (u : UserInput) : Prog unit :=
  match t with
  | T_evaluate_js self unique_id result_semaphore script =>
    _evaluate_js self unique_id result_semaphore script
  | T_create_bridge self => create_bridge self
  | T_destroy_window uid => self <- instances_getitem uid ;; close_window self
  | T_resize width height uid =>
    self <- instances_getitem uid ;; BrowserView_resize self width height
  | T_move x y uid => self <- instances_getitem uid ;; BrowserView_move self x y
  | T_create_file_dialog dialog_type directory allow_multiple save_filename file_types uid conn =>
    _create_file_dialog dialog_type directory allow_multiple save_filename file_types uid conn u
  end.

(** The worker's [caller] thread: [data[0]] called on the rest of [data]. *)
Definition run_command (cmd : Command) : Prog unit :=
  match cmd with
  | Cmd_destroy_window uid => _destroy_window uid
  | Cmd_resize width height uid => _resize width height uid
  | Cmd_move x y uid => _move x y uid
  | Cmd_idle_add t => idle_add t
  end.

(** A callback of the UI thread that is suspended: in its pumping loop, or
    blocked. *)
Inductive Frame : Type :=
| F_pump (k : Prog unit)
| F_wait (c : Cond) (k : Prog unit).

(** A calling thread: blocked, or back from its call. *)
Inductive ThreadState : Type :=
| T_blocked (c : Cond) (k : Prog pyval)
| T_returned (r : pyval)
| T_raised (e : exn).

Record Sys : Type := {
  world : World;
  threads : list ThreadState;
  ui : list Frame;                (* suspended UI callbacks, innermost first *)
}.

(** A thread that starts or resumes with program [p]; only the UI thread
    pumps, a pumping caller just goes on. *)
Fixpoint thread_run (p : Prog pyval) (w : World) : ThreadState * World :=
  match p with
  | Ret a => (T_returned a, w)
  | Raise e => (T_raised e, w)
  | Get k => thread_run (k w) w
  | Put w' k => thread_run k w'
  | Wait c k => if holds c w then thread_run k w else (T_blocked c k, w)
  | Pump k => thread_run k w
  end.

(** The UI thread runs a callback on top of the suspended ones [stack];
    an exception that leaves a callback is reported and dropped. *)
Definition ui_run (p : Prog unit) (stack : list Frame) (ts : list ThreadState) (w : World) : Sys :=
  match run p w with
  | Done _ w' => {| world := w'; threads := ts; ui := stack |}
  | Failed e w' => {| world := add_trace [E_uncaught e] w'; threads := ts; ui := stack |}
  | Pumping k w' => {| world := w'; threads := ts; ui := F_pump k :: stack |}
  | Blocked c k w' => {| world := w'; threads := ts; ui := F_wait c k :: stack |}
  end.

(** The UI thread dispatches: it is in a pumping loop, or in [gtk.main()]
    with no callback running and no quit requested. *)
Definition ui_ready (s : Sys) : bool :=
  match ui s with
  | F_pump _ :: _ => true
  | F_wait _ _ :: _ => false
  | [] => negb (Nat.eqb (main_level (world s)) 0) && negb (quitting (world s))
  end.

(** The native window and the renderer of [self] still emit signals. *)
Definition alive (self : addr) (w : World) : bool :=
  match views w !! self with
  | Some v => negb (destroyed v)
  | None => false
  end.

Definition is_submission (self : addr) (unique_id : string) (sem : addr) (ev : Event) : bool :=
  match ev with
  | E_run_javascript self' _ (Some (id', sem')) =>
    Nat.eqb self self' && String.eqb unique_id id' && Nat.eqb sem sem'
  | _ => false
  end.

(** What can happen next. *)
Inductive Label : Type :=
| L_thread (i : nat)                     (* calling thread [i] goes on *)
| L_idle (u : UserInput)                 (* the UI loop runs its oldest idle callback *)
| L_pump_done                            (* no event pending: the pumping callback goes on *)
| L_ui_resume                            (* a blocked UI callback goes on *)
| L_main_return                          (* [gtk.main()] returns after a quit *)
| L_load_changed (self : addr) (finished : bool)
| L_title (self : addr) (title : option string)
| L_js_finished (self : addr) (unique_id : string) (sem : addr) (value : option string)
| L_delete_event (self : addr) (u : UserInput)
| L_worker.                              (* the worker's caller thread takes a command *)

Definition step (l : Label) (s : Sys) : option Sys :=
  let w := world s in
  match l with
  | L_thread i =>
    match threads s !! i with
    | Some (T_blocked c k) =>
      if holds c w then
        let '(t, w') := thread_run k w in
        Some {| world := w'; threads := <[i := t]> (threads s); ui := ui s |}
      else None
    | _ => None
    end
  | L_idle u =>
    match idle w with
    | t :: rest =>
      if ui_ready s then Some (ui_run (run_task t u) (ui s) (threads s) (set_idle (fun _ => rest) w))
      else None
    | [] => None
    end
  | L_pump_done =>
    match ui s, idle w with
    | F_pump k :: stack, [] => Some (ui_run k stack (threads s) w)
    | _, _ => None
    end
  | L_ui_resume =>
    match ui s with
    | F_wait c k :: stack => if holds c w then Some (ui_run k stack (threads s) w) else None
    | _ => None
    end
  | L_main_return =>
    match ui s with
    | [] => if quitting w && negb (Nat.eqb (main_level w) 0)
            then Some {| world := set_quitting false (set_main_level (pred (main_level w)) w);
                         threads := threads s; ui := [] |}
            else None
    | _ => None
    end
  | L_load_changed self finished =>
    if ui_ready s && alive self w
    then Some (ui_run (on_load_finish self finished) (ui s) (threads s) w)
    else None
  | L_title self title =>
    if ui_ready s && alive self w
    then Some (ui_run (on_title_change self title) (ui s) (threads s) w)
    else None
  | L_js_finished self unique_id sem value =>
    if ui_ready s && alive self w && existsb (is_submission self unique_id sem) (trace w)
    then Some (ui_run (_callback self unique_id sem value) (ui s) (threads s) w)
    else None
  | L_delete_event self u =>
    if ui_ready s && alive self w
    then Some (ui_run (emit_delete_event self u) (ui s) (threads s) w)
    else None
  | L_worker =>
    match mp_idle_add w with
    | Some (cmd :: q) =>
      match run (run_command cmd) (set_mp_idle_add (Some q) w) with
      | Done _ w' => Some {| world := w'; threads := threads s; ui := ui s |}
      | Failed e w' => Some {| world := add_trace [E_uncaught e] w'; threads := threads s; ui := ui s |}
      | _ => None
      end
    | _ => None
    end
  end.

(** A schedule: the labels in turn, one that cannot happen is skipped. *)
Fixpoint exec (ls : list Label) (s : Sys) : Sys :=
  match ls with
  | [] => s
  | l :: ls' => exec ls' (default s (step l s))
  end.


(** ** More of the backend *)

(** [BrowserView.on_webview_ready]; a view that [__init__] built has its
    [shown] attribute. *)
Definition on_webview_ready (self : addr) : Prog unit :=
  v <- the_view self ;;
  event_set (pywebview_window v) Shown.

(** [BrowserView.get_current_url]; [uri] is what [self.webview.get_uri()]
    returns once [loaded] is set. *)
Definition BrowserView_get_current_url (self : addr) (uri : string) : Prog pyval :=
  v <- the_view self ;;
  event_wait (pywebview_window v) Loaded ;;
  Ret (if negb (String.eqb uri "about:blank") then PyStr uri else PyNone).

(** The module-level [get_current_url]. *)
Definition get_current_url (uid : string) (uri : string) : Prog pyval :=
  self <- instances_getitem uid ;;
  BrowserView_get_current_url self uri.

(** The body of the loop of [mp_event_loop] for one pair
    [(uid, event_name)] taken from [mp_events]: the named event of every
    window of [windows] with this uid is set. *)
Definition mp_event_loop_body (uid : string) (event_name : Signal) : Prog unit :=
  w <- get ;;
  for_each (windows w)
    (fun window =>
       o <- the_window window ;;
       if String.eqb (window_uid o) uid then event_set window event_name else Ret tt).

(** ** States and scenarios the statements refer to *)

(** The release loop of teardown, as a function of the state. *)
Definition release_one (w : World) (e : js_entry) : World :=
  add_trace [E_release (semaphore e)] (set_sems <[semaphore e := S (sem_value w (semaphore e))]> w).

Fixpoint release_all (l : list js_entry) (w : World) : World :=
  match l with
  | [] => w
  | e :: l' => release_all l' (release_one w e)
  end.

(** The state teardown leaves when it starts pumping. *)
Definition closing_state (v : BrowserView) (w : World) : World :=
  release_all (map_to_list (js_results v)).*2
    (add_trace [E_set (pywebview_window v) Closing]
       (set_sessions (alter (set_signal Closing true) (pywebview_window v)) w)).

(** The state teardown leaves when it is over, from the state [w] the
    pump leaves, for the view [v] found there. *)
Definition closed_state (self : addr) (v : BrowserView) (w : World) : World :=
  let wa := add_trace [E_del_instance (uid v)]
              (set_instances (delete (uid v))
                 (add_trace [E_window_destroy self] (set_views (alter set_destroyed self) w))) in
  let wb := if bool_decide (pywebview_window v ∈ windows w)
            then add_trace [E_windows_remove (pywebview_window v)]
                   (set_windows (list_remove (pywebview_window v)) wa)
            else wa in
  let wc := add_trace [E_set (pywebview_window v) Closed]
              (set_sessions (alter (set_signal Closed true) (pywebview_window v)) wb) in
  if bool_decide (delete (uid v) (instances w) = ∅)
  then add_trace [E_main_quit] (set_quitting (quitting w || negb (Nat.eqb (main_level w) 0)) wc)
  else wc.

(** The steps of teardown after the pump, from the state [w] the pump
    leaves, for the view [v] of uid [uid v]. *)
Definition steps_after_pump (self : addr) (v : BrowserView) (w : World) : list Event :=
  [E_window_destroy self; E_del_instance (uid v)]
  ++ (if bool_decide (pywebview_window v ∈ windows w)
      then [E_windows_remove (pywebview_window v)] else [])
  ++ [E_set (pywebview_window v) Closed]
  ++ (if bool_decide (delete (uid v) (instances w) = ∅) then [E_main_quit] else []).

(** A window whose page has not finished loading, shown by a running main
    loop. *)
Definition master_window : Window :=
  {| window_uid := "master"; confirm_close := false; fullscreen := false;
     window_text_select := false; real_url := Some "http://localhost/"; html := "";
     shown := true; loaded := false; closing := false; closed := false |}.

Definition master_view : BrowserView :=
  {| uid := "master"; pywebview_window := 0; is_fullscreen := false; js_results := ∅;
     js_bridge_uid := "0a1b2c3d"; text_select := false;
     delete_event := Some H_close_window; destroyed := false |}.

Definition loading_world : World :=
  {| instances := {[ "master" := 0 ]}; views := {[ 0 := master_view ]};
     sessions := {[ 0 := master_window ]}; windows := [0]; sems := ∅; pipes := ∅;
     main_level := 1; quitting := false; idle := []; mp_idle_add := None; trace := [] |}.




(** A thread inside [evaluate_js] for the call [unique_id], blocked in
    [result_semaphore.acquire()]. *)
Definition waiter (self : addr) (unique_id : string) (sem : addr) : ThreadState :=
  T_blocked (C_sem sem)
    (modify (fun w => set_sems <[sem := pred (sem_value w sem)]> w) ;;
     evaluate_js_collect self unique_id).

Definition waiters (self : addr) (entries : list (string * js_entry)) : list ThreadState :=
  (fun ce => waiter self ce.1 (semaphore ce.2)) <$> entries.

(** How a waiter ends once it has a permit, with the main loop at level
    [level] and the entry [e] stored for it. *)
Definition outcome (level : nat) (e : js_entry) : ThreadState :=
  if Nat.eqb level 0 then T_returned PyNone
  else match decode_result (result_slot e) with
       | Ok r => T_returned r
       | Err x => T_raised x
       end.

(** The state a waiter leaves. *)
Definition collected_state (self : addr) (unique_id : string) (e : js_entry) (w : World)
  : World :=
  let w' := set_sems <[semaphore e := pred (sem_value w (semaphore e))]> w in
  if Nat.eqb (main_level w) 0 then w'
  else match decode_result (result_slot e) with
       | Ok _ => set_views (alter (set_js_results (delete unique_id)) self) w'
       | Err _ => w'
       end.

(** What [_create_file_dialog] leaves when it sent [x]: the chooser was
    shown and destroyed, and [x] is in the pipe. *)
Definition dialog_sent (self : addr) (dialog_type : DialogType) (directory : string)
    (allow_multiple : bool) (save_filename : string) (conn : addr) (x : pyval) (w : World)
  : World :=
  let w' := add_trace
    [E_file_chooser self
       match dialog_type with
       | FOLDER_DIALOG => ACTION_SELECT_FOLDER
       | OPEN_DIALOG => ACTION_OPEN
       | SAVE_DIALOG => ACTION_SAVE
       end
       match dialog_type with
       | FOLDER_DIALOG => "linux.openFolder"
       | OPEN_DIALOG => if allow_multiple then "linux.openFiles" else "linux.openFile"
       | SAVE_DIALOG => "global.saveFile"
       end
       allow_multiple directory
       (if dialog_type is SAVE_DIALOG then Some save_filename else None);
     E_dialog_destroy] w in
  set_pipes <[conn := default [] (pipes w !! conn) ++ [x]]> w'.

(** Values for the parameters of the backend: a WebKit2 that reports
    script results (2.28) and one that does not (2.4), an API of one
    function that returns [r], and a bridge script. *)
Definition webkit_modern : Z * Z * Z := (2, 28, 0)%Z.
Definition webkit_legacy : Z * Z * Z := (2, 4, 0)%Z.
Definition api_returns (r : retval) : addr -> pyval -> pyval -> pyval -> Prog retval :=
  fun _ _ _ _ => Ret r.
Definition api_js : addr -> string -> string := fun _ _ => "window.pywebview = {}".

(** The same window once its page is loaded. *)
Definition loaded_world : World :=
  set_sessions (alter (set_signal Loaded true) 0) loading_world.


(** A view with two calls in flight, each with its semaphore. *)
Definition two_calls_view : BrowserView :=
  set_js_results (fun _ => {[ "c1" := {| semaphore := 0; result_slot := PyNone |};
                              "c2" := {| semaphore := 1; result_slot := PyNone |} ]})
    master_view.

Definition two_calls_world : World :=
  set_sems (fun _ => {[ 0 := 0; 1 := 0 ]})
    (set_views (fun _ => {[ 0 := two_calls_view ]}) loaded_world).

(** The title [{"type": "invoke", "function": "f", "id": "x1", "param": "hello"}]. *)
Definition invoke_title : string :=
  "{" +:+ dq +:+ "type" +:+ dq +:+ ": " +:+ dq +:+ "invoke" +:+ dq +:+ ", "
      +:+ dq +:+ "function" +:+ dq +:+ ": " +:+ dq +:+ "f" +:+ dq +:+ ", "
      +:+ dq +:+ "id" +:+ dq +:+ ": " +:+ dq +:+ "x1" +:+ dq +:+ ", "
      +:+ dq +:+ "param" +:+ dq +:+ ": " +:+ dq +:+ "hello" +:+ dq +:+ "}".

Definition invoke_payload : list (string * pyval) :=
  [("type", PyStr "invoke"); ("function", PyStr "f"); ("id", PyStr "x1");
   ("param", PyStr "hello")].

Definition accept (path : string) : UserInput :=
  {| response := RESPONSE_OK; filename := Some path; filenames := [path] |}.


(** ** Facts about programs *)

Lemma run_bind {A B : Type} (p : Prog A) (f : A -> Prog B) (w : World) :
  run (bind p f) w =
  match run p w with
  | Done a w' => run (f a) w'
  | Failed e w' => Failed e w'
  | Blocked c k w' => Blocked c (bind k f) w'
  | Pumping k w' => Pumping (bind k f) w'
  end.
Proof.
  revert w. induction p as [a | e | k IH | w0 k IH | c k IH | k IH]; intros w; simpl; auto.
  destruct (holds c w); auto.
Qed.

Lemma run_try_clauses {A : Type} (p : Prog A) (clauses : list (exn_class * (exn -> Prog A)))
    (w : World) :
  run (try_clauses p clauses) w =
  match run p w with
  | Done a w' => Done a w'
  | Failed e w' => match find_clause e clauses with
                   | Some h => run h w'
                   | None => Failed e w'
                   end
  | Blocked c k w' => Blocked c (try_clauses k clauses) w'
  | Pumping k w' => Pumping (try_clauses k clauses) w'
  end.
Proof.
  revert w. induction p as [a | e | k IH | w0 k IH | c k IH | k IH]; intros w; simpl; auto.
  - destruct (find_clause e clauses); reflexivity.
  - destruct (holds c w); auto.
Qed.

Lemma run_release_loop {A : Type} (l : list js_entry) (f : unit -> Prog A) (w : World) :
  run (bind (for_each l (fun res => sem_release (semaphore res))) f) w
  = run (f tt) (release_all l w).
Proof.
  revert w. induction l as [| e l IH]; intros w; simpl; [reflexivity |].
  rewrite <- IH. reflexivity.
Qed.

(** *** The title side channel *)



(** C10, amended.  A title that decodes to something other than an
    object: for [null], a boolean or a number the membership test raises
    [TypeError], which no clause of the handler catches; for a string the
    test is a substring test and for an array an element test, neither
    raises, the callback returns at once when ['type'] is not found and
    raises [TypeError] at the subscript [js_data['type']] when it is. *)
Theorem on_title_change_non_object (self : addr) (title : string) (v : pyval) (w : World) :
  json_loads title = Ok v ->
  match v with
  | PyNone | PyBool _ | PyInt _ | PyFloat _ =>
    run (on_title_change self (Some title)) w
    = Failed (TypeError ("argument of type '" +:+ type_name v +:+ "' is not iterable")) w
  | PyStr s =>
    run (on_title_change self (Some title)) w
    = if str_contains "type" s then Failed (TypeError "string indices must be integers") w
      else Done tt w
  | PyList l =>
    run (on_title_change self (Some title)) w
    = if existsb (fun x => py_eq_str x "type") l
      then Failed (TypeError "list indices must be integers or slices, not str") w
      else Done tt w
  | PyTuple _ | PyDict _ => True
  end.
Proof.
  intros H. unfold on_title_change.
  destruct v as [| b | z | x | s | l | l | d]; try exact I; simpl; rewrite H; simpl;
    try reflexivity.
  - destruct (str_contains "type" s); reflexivity.
  - destruct (existsb _ l); reflexivity.
Qed.

Lemma append_cons (c : ascii) (a b : string) : String c a +:+ b = String c (a +:+ b).
Proof. reflexivity. Qed.

Lemma append_assoc (a b c : string) : (a +:+ b) +:+ c = a +:+ (b +:+ c).
Proof.
  induction a as [| x a IH]; [reflexivity |].
  now rewrite !append_cons, IH.
Qed.

Lemma strip_prefix_append (p x : string) : strip_prefix p (p +:+ x) = Some x.
Proof.
  induction p as [| c p IH]; [reflexivity |].
  rewrite append_cons. simpl. now rewrite Ascii.eqb_refl.
Qed.

(** Escaping is undone by reading the literal: the text between the
    quotes denotes the escaped string. *)
Lemma js_string_literal_escape (s rest : string) :
  js_string_literal (escape_string s +:+ String "034"%char rest) = Some (s, rest).
Proof.
  induction s as [| c s IH]; [reflexivity |].
  cbn [escape_string].
  destruct (Ascii.eqb_spec c "\") as [-> | Hbs];
    [rewrite !append_cons; simpl; change ("" +:+ ?x) with x; now rewrite IH |].
  destruct (Ascii.eqb_spec c "034") as [-> | Hdq];
    [change ("\" +:+ dq) with (String "\" (String "034" "")); rewrite !append_cons; simpl;
     change ("" +:+ ?x) with x; now rewrite IH |].
  destruct (Ascii.eqb_spec c "010") as [-> | Hlf];
    [rewrite !append_cons; simpl; change ("" +:+ ?x) with x; now rewrite IH |].
  destruct (Ascii.eqb_spec c "013") as [-> | Hcr];
    [rewrite !append_cons; simpl; change ("" +:+ ?x) with x; now rewrite IH |].
  rewrite !append_cons. change ("" +:+ ?x) with x. simpl.
  apply Ascii.eqb_neq in Hbs, Hdq, Hlf, Hcr. rewrite Hbs, Hdq, Hlf, Hcr. simpl.
  now rewrite IH.
Qed.

Lemma js_return_val_escape (s : string) :
  js_return_val (return_val_statement (escape_string s)) = Some (JsStr s).
Proof.
  unfold js_return_val, return_val_statement.
  rewrite <- append_assoc, strip_prefix_append.
  change (dq +:+ ";") with (String "034"%char ";").
  now rewrite js_string_literal_escape.
Qed.

(** C7, amended.  An [invoke] payload with members [function], [id] and
    [param]: the native handler is called for the function, with the id
    and with the parameter, the string ['undefined'] replaced by [None];
    the statement then injected assigns, on the script side, the string
    [str(r)] of the value [r] it returned.  That is [r] itself when [r] is
    a string; for [None], a boolean or a number it is the text Python
    prints ([None], [True], [False], the digits), a string and not the
    value. *)
Theorem invoke_returns_str_of_value (self : addr) (v : BrowserView) (title : string)
    (d : list (string * pyval)) (f id p : pyval) (r : retval) (w w' : World) :
  views w !! self = Some v ->
  json_loads title = Ok (PyDict d) ->
  dict_get "type" d = Some (PyStr "invoke") ->
  dict_get "function" d = Some f ->
  dict_get "id" d = Some id ->
  dict_get "param" d = Some p ->
  run (js_bridge_call (pywebview_window v) f (if py_eq_str p "undefined" then PyNone else p) id) w
  = Done r w' ->
  let code := return_val_statement (escape_string (py_str r)) in
  run (on_title_change self (Some title)) w
  = Done tt (add_trace [E_run_javascript self code None] w')
  /\ js_return_val code = Some (JsStr (py_str r))
  /\ match r with
     | RStr s => js_return_val code = js_of r
     | RNone => js_return_val code = Some (JsStr "None")
     | RBool b => js_return_val code = Some (JsStr (if b then "True" else "False"))
     | RInt z => js_return_val code = Some (JsStr (str_of_Z z))
     | ROther text => js_return_val code = Some (JsStr text)
     end.
Proof.
  intros Hv Hj Ht Hf Hi Hp Hcall code. subst code.
  split; [| split; [apply js_return_val_escape |]].
  - unfold on_title_change. simpl. rewrite Hj. simpl. rewrite Ht, Hf, Hi, Hp. simpl.
    rewrite Hv. simpl. unfold JSBridge_call.
    rewrite run_try_clauses, run_bind, Hcall. reflexivity.
  - rewrite js_return_val_escape. destruct r as [| [|] | z | s | text]; reflexivity.
Qed.

(** *** Teardown *)

Lemma release_all_trace (l : list js_entry) (w : World) :
  trace (release_all l w) = trace w ++ (E_release <$> (semaphore <$> l)).
Proof.
  revert w. induction l as [| e l IH]; intros w; simpl.
  - now rewrite app_nil_r.
  - rewrite IH. simpl. now rewrite <- app_assoc.
Qed.

Lemma release_all_frame (l : list js_entry) (w : World) :
  instances (release_all l w) = instances w
  /\ views (release_all l w) = views w
  /\ sessions (release_all l w) = sessions w
  /\ windows (release_all l w) = windows w
  /\ main_level (release_all l w) = main_level w
  /\ quitting (release_all l w) = quitting w
  /\ idle (release_all l w) = idle w.
Proof.
  revert w. induction l as [| e l IH]; intros w; simpl; [repeat split |].
  apply (IH (release_one w e)).
Qed.

(** Every release adds a permit: a semaphore gains one permit for each
    entry that holds it. *)
Lemma release_all_sem_value (l : list js_entry) (w : World) (sem : addr) :
  sem_value (release_all l w) sem
  = sem_value w sem + length (filter (fun e => semaphore e = sem) l).
Proof.
  revert w. induction l as [| e l IH]; intros w; simpl; [lia |].
  rewrite IH.
  unfold sem_value at 1, release_one. simpl.
  rewrite filter_cons. destruct (decide (semaphore e = sem)) as [-> | Hne].
  - rewrite lookup_insert_eq. simpl. unfold sem_value. lia.
  - rewrite lookup_insert_ne by done. fold (sem_value w sem). simpl. lia.
Qed.

Lemma close_window_runs (self : addr) (v : BrowserView) (w : World) :
  views w !! self = Some v ->
  exists k,
    run (close_window self) w = Pumping k (closing_state v w)
    /\ forall (w2 : World) (v2 : BrowserView) (a : addr),
         views w2 !! self = Some v2 ->
         instances w2 !! uid v2 = Some a ->
         run k w2 = Done tt (closed_state self v2 w2).
Proof.
  intros Hv. eexists. split.
  - unfold close_window. simpl. rewrite Hv. simpl.
    rewrite run_release_loop. reflexivity.
  - intros w2 v2 a Hv2 Hi. simpl.
    rewrite lookup_alter_eq, Hv2. simpl. rewrite Hi. simpl.
    unfold closed_state.
    destruct (bool_decide (pywebview_window v2 ∈ windows w2)); simpl;
      destruct (bool_decide (delete (uid v2) (instances w2) = ∅)); reflexivity.
Qed.

Lemma closed_state_frame (self : addr) (v : BrowserView) (w : World) :
  views (closed_state self v w) = alter set_destroyed self (views w)
  /\ sems (closed_state self v w) = sems w
  /\ main_level (closed_state self v w) = main_level w
  /\ idle (closed_state self v w) = idle w
  /\ instances (closed_state self v w) = delete (uid v) (instances w)
  /\ sessions (closed_state self v w)
     = alter (set_signal Closed true) (pywebview_window v) (sessions w)
  /\ windows (closed_state self v w)
     = (if bool_decide (pywebview_window v ∈ windows w)
        then list_remove (pywebview_window v) (windows w) else windows w)
  /\ trace (closed_state self v w) = trace w ++ steps_after_pump self v w.
Proof.
  unfold closed_state, steps_after_pump.
  destruct (bool_decide (pywebview_window v ∈ windows w)); simpl;
    destruct (bool_decide (delete (uid v) (instances w) = ∅)); simpl;
    repeat split; now rewrite <- ?app_assoc.
Qed.


(** *** Close requests *)

(** What [__init__] leaves: a new view, registered under the window's
    uid, whose [delete-event] handler follows [confirm_close]. *)
Lemma BrowserView_init_connects (window : addr) (win : Window) (bridge_uid default_html : string)
    (w : World) :
  sessions w !! window = Some win ->
  exists self w1 v,
    run (BrowserView_init window bridge_uid default_html) w = Done self w1
    /\ views w !! self = None
    /\ views w1 !! self = Some v
    /\ instances w1 !! window_uid win = Some self
    /\ uid v = window_uid win
    /\ pywebview_window v = window
    /\ js_results v = ∅
    /\ delete_event v = Some (if confirm_close win then H_on_destroy else H_close_window).
Proof.
  intros Hw. unfold BrowserView_init. simpl. rewrite Hw. simpl.
  set (self := fresh (dom (views w))).
  assert (Hfresh : views w !! self = None).
  { apply not_elem_of_dom. apply is_fresh. }
  exists self.
  destruct (confirm_close win), (real_url win), (negb (String.eqb (html win) "")),
    (fullscreen win); simpl;
    rewrite ?lookup_alter_eq, ?lookup_insert_eq; simpl;
    rewrite ?lookup_alter_eq, ?lookup_insert_eq; simpl;
    (eexists; eexists; split; [reflexivity |]); simpl;
    rewrite ?lookup_alter_eq, ?lookup_insert_eq; simpl;
    rewrite ?lookup_alter_eq, ?lookup_insert_eq; simpl;
    repeat split; auto.
Qed.

Lemma run_emit_delete_event (self : addr) (v : BrowserView) (u : UserInput) (w : World) :
  views w !! self = Some v ->
  run (emit_delete_event self u) w
  = run (match delete_event v with
         | Some H_on_destroy => on_destroy self u ;; Ret tt
         | Some H_close_window => close_window self
         | None => update_view self set_destroyed ;; log (E_window_destroy self)
         end) w.
Proof.
  intros Hv. unfold emit_delete_event, the_view, get. cbn [bind run]. now rewrite Hv.
Qed.

(** C5.  A view built by [__init__] for a window: when [confirm_close]
    is unset, a close request is teardown itself; when it is set, the
    OK/Cancel prompt is shown, then teardown runs if the user accepts
    (the prompt is destroyed once teardown is over), and on any other
    answer the prompt is destroyed and nothing else happens: no signal is
    set, [instances], the views and the windows are as before. *)
Theorem close_request_policy (window : addr) (win : Window) (bridge_uid default_html : string)
    (w0 : World) :
  sessions w0 !! window = Some win ->
  exists self w1 v,
    run (BrowserView_init window bridge_uid default_html) w0 = Done self w1
    /\ views w1 !! self = Some v
    /\ forall (w : World) (v' : BrowserView) (u : UserInput),
         views w !! self = Some v' ->
         delete_event v' = delete_event v ->
         let prompt := E_message_dialog self (Z.land MODAL DESTROY_WITH_PARENT)
                         "global.quitConfirmation" in
         if confirm_close win then
           if response u is RESPONSE_OK then
             exists k k',
               run (close_window self) (add_trace [prompt] w)
               = Pumping k (closing_state v' (add_trace [prompt] w))
               /\ run (emit_delete_event self u) w
                  = Pumping k' (closing_state v' (add_trace [prompt] w))
               /\ forall w2 w3, run k w2 = Done tt w3 ->
                                run k' w2 = Done tt (add_trace [E_dialog_destroy] w3)
           else
             exists w',
               run (emit_delete_event self u) w = Done tt w'
               /\ w' = add_trace [prompt; E_dialog_destroy] w
               /\ sessions w' = sessions w
               /\ instances w' = instances w
               /\ views w' = views w
               /\ windows w' = windows w
         else
           run (emit_delete_event self u) w = run (close_window self) w.
Proof.
  intros Hw.
  destruct (BrowserView_init_connects window win bridge_uid default_html w0 Hw)
    as (self & w1 & v & Hrun & _ & Hv & _ & _ & _ & _ & Hd).
  exists self, w1, v. split; [exact Hrun |]. split; [exact Hv |].
  intros w v' u Hv' Heq prompt. rewrite Hd in Heq.
  destruct (confirm_close win).
  - destruct (response u) eqn:Hr.
    + destruct (close_window_runs self v' (add_trace [prompt] w)) as (k & Hk & _);
        [exact Hv' |].
      exists k. eexists. split; [exact Hk |]. split.
      * rewrite (run_emit_delete_event self v' u w Hv'), Heq. unfold on_destroy.
        rewrite Hr. cbn [run bind log modify]. fold prompt.
        rewrite !run_bind, Hk. reflexivity.
      * intros w2 w3 Hk2. rewrite !run_bind, Hk2. reflexivity.
    + eexists. split; [| repeat split].
      rewrite (run_emit_delete_event self v' u w Hv'), Heq. unfold on_destroy.
      rewrite Hr. simpl. unfold add_trace. simpl. now rewrite <- app_assoc.
    + eexists. split; [| repeat split].
      rewrite (run_emit_delete_event self v' u w Hv'), Heq. unfold on_destroy.
      rewrite Hr. simpl. unfold add_trace. simpl. now rewrite <- app_assoc.
  - now rewrite (run_emit_delete_event self v' u w Hv'), Heq.
Qed.

(** *** Synchronous evaluation *)


(** The caller after it took a permit of [sem]: what it returns, in the
    state [w] it wakes up in, and what it leaves. *)
Lemma run_collect (self : addr) (v : BrowserView) (unique_id : string) (w : World) :
  views w !! self = Some v ->
  run (evaluate_js_collect self unique_id) w =
  if Nat.eqb (main_level w) 0 then Done PyNone w
  else match js_results v !! unique_id with
       | Some e =>
         match decode_result (result_slot e) with
         | Ok r => Done r (set_views (alter (set_js_results (delete unique_id)) self) w)
         | Err x => Failed x w
         end
       | None => Failed (KeyError (PyStr unique_id)) w
       end.
Proof.
  intros Hv. unfold evaluate_js_collect. simpl.
  destruct (Nat.eqb (main_level w) 0); [reflexivity |].
  simpl. rewrite Hv. simpl.
  destruct (js_results v !! unique_id) as [e |] eqn:He; [| reflexivity].
  simpl. destruct (decode_result (result_slot e)); [| reflexivity].
  simpl. rewrite Hv. simpl. rewrite He. reflexivity.
Qed.


(** *** A call that never returns *)




(** *** Waiters at teardown *)

(** A caller of [evaluate_js] on a loaded window with a running script is
    such a waiter. *)
Lemma evaluate_js_becomes_waiter (self : addr) (v : BrowserView) (win : Window)
    (script unique_id : string) (w : World) :
  views w !! self = Some v ->
  sessions w !! pywebview_window v = Some win ->
  loaded win = true ->
  (thread_run (BrowserView_evaluate_js self script unique_id) w).1
  = waiter self unique_id (fresh (dom (sems w))).
Proof.
  intros Hv Hw Hl. unfold BrowserView_evaluate_js. simpl.
  rewrite lookup_alter_eq, Hv. simpl. rewrite Hw. simpl. rewrite Hl.
  unfold sem_value. simpl. rewrite lookup_insert_eq. reflexivity.
Qed.

Lemma thread_run_of_run (p : Prog pyval) (w : World) :
  match run p w with
  | Done r w' => thread_run p w = (T_returned r, w')
  | Failed e w' => thread_run p w = (T_raised e, w')
  | Blocked c k w' => thread_run p w = (T_blocked c k, w')
  | Pumping k w' => True
  end.
Proof.
  revert w. induction p as [a | e | k IH | w0 k IH | c k IH | k IH]; intros w; simpl.
  - reflexivity.
  - reflexivity.
  - apply IH.
  - apply IH.
  - destruct (holds c w); [apply IH | reflexivity].
  - exact I.
Qed.

Lemma thread_run_done (p : Prog pyval) (w w' : World) (r : pyval) :
  run p w = Done r w' -> thread_run p w = (T_returned r, w').
Proof. intros H. pose proof (thread_run_of_run p w) as Ht. now rewrite H in Ht. Qed.

Lemma thread_run_failed (p : Prog pyval) (w w' : World) (e : exn) :
  run p w = Failed e w' -> thread_run p w = (T_raised e, w').
Proof. intros H. pose proof (thread_run_of_run p w) as Ht. now rewrite H in Ht. Qed.

Lemma step_waiter (self : addr) (v : BrowserView) (unique_id : string) (e : js_entry)
    (before after : list ThreadState) (w : World) :
  views w !! self = Some v ->
  js_results v !! unique_id = Some e ->
  1 <= sem_value w (semaphore e) ->
  step (L_thread (length before))
    {| world := w; threads := before ++ waiter self unique_id (semaphore e) :: after; ui := [] |}
  = Some {| world := collected_state self unique_id e w;
            threads := before ++ outcome (main_level w) e :: after; ui := [] |}.
Proof.
  intros Hv He Hperm. unfold step. simpl.
  rewrite list_lookup_middle by reflexivity. unfold waiter.
  assert (Hh : holds (C_sem (semaphore e)) w = true).
  { simpl. destruct (sem_value w (semaphore e)); [lia | reflexivity]. }
  rewrite Hh.
  set (k := modify _ ;; evaluate_js_collect self unique_id).
  set (w' := set_sems <[semaphore e := pred (sem_value w (semaphore e))]> w).
  assert (Hrun : run k w = run (evaluate_js_collect self unique_id) w') by reflexivity.
  rewrite (run_collect self v unique_id w') in Hrun by exact Hv.
  change (main_level w') with (main_level w) in Hrun. rewrite He in Hrun.
  unfold outcome, collected_state. fold w'.
  destruct (Nat.eqb (main_level w) 0).
  - rewrite (thread_run_done _ _ _ _ Hrun).
    rewrite insert_app_r_alt, Nat.sub_diag by lia. reflexivity.
  - destruct (decode_result (result_slot e)).
    + rewrite (thread_run_done _ _ _ _ Hrun).
      rewrite insert_app_r_alt, Nat.sub_diag by lia. reflexivity.
    + rewrite (thread_run_failed _ _ _ _ Hrun).
      rewrite insert_app_r_alt, Nat.sub_diag by lia. reflexivity.
Qed.

Lemma collected_state_frame (self : addr) (v : BrowserView) (unique_id : string)
    (e : js_entry) (w : World) :
  views w !! self = Some v ->
  main_level (collected_state self unique_id e w) = main_level w
  /\ (forall sem, sem <> semaphore e ->
        sem_value (collected_state self unique_id e w) sem = sem_value w sem)
  /\ exists v', views (collected_state self unique_id e w) !! self = Some v'
               /\ forall id', id' <> unique_id -> js_results v' !! id' = js_results v !! id'.
Proof.
  intros Hv. unfold collected_state.
  destruct (Nat.eqb (main_level w) 0); [| destruct (decode_result (result_slot e))]; simpl.
  - split; [reflexivity |]. split.
    + intros sem Hne. unfold sem_value. simpl. now rewrite lookup_insert_ne.
    + exists v. split; [exact Hv | reflexivity].
  - split; [reflexivity |]. split.
    + intros sem Hne. unfold sem_value. simpl. now rewrite lookup_insert_ne.
    + exists (set_js_results (delete unique_id) v). split.
      * now rewrite lookup_alter_eq, Hv.
      * intros id' Hne. simpl. now rewrite lookup_delete_ne.
  - split; [reflexivity |]. split.
    + intros sem Hne. unfold sem_value. simpl. now rewrite lookup_insert_ne.
    + exists v. split; [exact Hv | reflexivity].
Qed.

(** Waiters that each have a permit all end, whatever their number. *)
Lemma exec_waiters (self : addr) (rest : list (string * js_entry)) :
  forall (before : list ThreadState) (w : World) (v : BrowserView),
    views w !! self = Some v ->
    NoDup rest.*1 ->
    NoDup (semaphore <$> rest.*2) ->
    (forall ce, ce ∈ rest ->
       js_results v !! ce.1 = Some ce.2 /\ 1 <= sem_value w (semaphore ce.2)) ->
    exists w',
      exec (L_thread <$> seq (length before) (length rest))
        {| world := w; threads := before ++ waiters self rest; ui := [] |}
      = {| world := w'; threads := before ++ (outcome (main_level w) <$> rest.*2); ui := [] |}.
Proof.
  induction rest as [| [id e] rest IH]; intros before w v Hv Hids Hsems Hall.
  - exists w. reflexivity.
  - simpl in Hids, Hsems. apply NoDup_cons in Hids as [Hid Hids].
    apply NoDup_cons in Hsems as [Hsem Hsems].
    destruct (Hall (id, e)) as [He Hperm]; [left |]. simpl in He, Hperm.
    change (exec _ _) with
      (exec (L_thread <$> seq (S (length before)) (length rest))
         (default {| world := w; threads := before ++ waiters self ((id, e) :: rest); ui := [] |}
            (step (L_thread (length before))
               {| world := w;
                  threads := before ++ waiter self id (semaphore e) :: waiters self rest;
                  ui := [] |}))).
    rewrite (step_waiter self v id e before (waiters self rest) w Hv He Hperm).
    cbn [default from_option fmap list_fmap snd].
    destruct (collected_state_frame self v id e w Hv) as (Hlevel & Hother & v' & Hv' & Hkeep).
    destruct (IH (before ++ [outcome (main_level w) e]) (collected_state self id e w) v')
      as [w' Hexec]; [exact Hv' | exact Hids | exact Hsems | |].
    + intros ce Hce. destruct (Hall ce) as [Hce1 Hce2]; [now right |]. split.
      * rewrite Hkeep; [exact Hce1 |]. intros Heq. apply Hid.
        apply list_elem_of_fmap. exists ce. split; [symmetry; exact Heq | exact Hce].
      * rewrite Hother; [exact Hce2 |]. intros Heq. apply Hsem.
        apply list_elem_of_fmap. exists ce.2. split; [symmetry; exact Heq |].
        apply list_elem_of_fmap. exists ce. split; [reflexivity | exact Hce].
    + exists w'. rewrite length_app in Hexec. simpl in Hexec.
      rewrite Nat.add_1_r in Hexec. rewrite <- app_assoc in Hexec. simpl in Hexec.
      change (Datatypes.id ?x) with x.
      rewrite Hexec, Hlevel, <- app_assoc. reflexivity.
Qed.

Lemma closing_state_frame (v : BrowserView) (w : World) :
  instances (closing_state v w) = instances w
  /\ views (closing_state v w) = views w
  /\ main_level (closing_state v w) = main_level w
  /\ idle (closing_state v w) = idle w.
Proof.
  unfold closing_state.
  destruct (release_all_frame (map_to_list (js_results v)).*2
    (add_trace [E_set (pywebview_window v) Closing]
       (set_sessions (alter (set_signal Closing true) (pywebview_window v)) w)))
    as (-> & -> & _ & _ & -> & _ & ->).
  repeat split.
Qed.

Lemma filter_length_elem (sem : addr) (l : list js_entry) (e : js_entry) :
  e ∈ l -> semaphore e = sem -> 1 <= length (filter (fun e' => semaphore e' = sem) l).
Proof.
  intros He Hs.
  assert (Hin : e ∈ filter (fun e' => semaphore e' = sem) l) by (apply list_elem_of_filter; auto).
  destruct (filter _ l); [inversion Hin | simpl; lia].
Qed.

Lemma outcome_not_blocked (level : nat) (e : js_entry) (c : Cond) (k : Prog pyval) :
  outcome level e <> T_blocked c k.
Proof.
  unfold outcome. destruct (Nat.eqb level 0); [discriminate |].
  destruct (decode_result (result_slot e)); discriminate.
Qed.

(** C3.  A view with [N] entries in its table, each with a semaphore of
    its own that has no permit, and one thread blocked in
    [acquire()] for each: before teardown no thread can move.  Teardown
    releases each semaphore once, [N] releases in all, so that each has a
    permit; when the pump has found nothing pending, teardown is over,
    and each of the [N] threads, run in turn, leaves [evaluate_js]: with
    [None] when no main loop runs or its slot is empty, otherwise with
    what its slot decodes to (or the exception decoding raises).  None
    stays blocked. *)
Theorem teardown_releases_every_waiter (N : nat) (self a : addr) (v : BrowserView) (w : World) :
  views w !! self = Some v ->
  instances w !! uid v = Some a ->
  idle w = [] ->
  size (js_results v) = N ->
  NoDup (semaphore <$> (map_to_list (js_results v)).*2) ->
  (forall id e, js_results v !! id = Some e -> sem_value w (semaphore e) = 0) ->
  let entries := map_to_list (js_results v) in
  let s0 := {| world := w; threads := waiters self entries; ui := [] |} in
  let s1 := ui_run (close_window self) [] (threads s0) w in
  let s2 := exec (L_pump_done :: (L_thread <$> seq 0 N)) s1 in
  length (threads s0) = N
  /\ (forall i, step (L_thread i) s0 = None)
  /\ trace (world s1)
     = trace w ++ E_set (pywebview_window v) Closing :: (E_release <$> (semaphore <$> entries.*2))
  /\ length (E_release <$> (semaphore <$> entries.*2)) = N
  /\ (forall id e, js_results v !! id = Some e -> 1 <= sem_value (world s1) (semaphore e))
  /\ ui s2 = []
  /\ threads s2 = outcome (main_level w) <$> entries.*2
  /\ Forall (fun t => forall c k, t <> T_blocked c k) (threads s2)
  /\ Forall (fun e => result_slot e = PyNone -> outcome (main_level w) e = T_returned PyNone)
       entries.*2.
Proof.
  intros Hv Hi Hidle Hsize Hnodup Hzero entries s0 s1 s2.
  destruct (close_window_runs self v w Hv) as (k & Hk & Hfinish).
  assert (Hlen : length entries = N).
  { unfold entries. now rewrite length_map_to_list. }
  assert (Hs1 : s1 = {| world := closing_state v w; threads := waiters self entries;
                        ui := [F_pump k] |}).
  { unfold s1, ui_run. now rewrite Hk. }
  destruct (closing_state_frame v w) as (Hfi & Hfv & Hfl & Hfidle).
  assert (Hperm : forall id e, js_results v !! id = Some e ->
                               1 <= sem_value (closing_state v w) (semaphore e)).
  { intros id e He. unfold closing_state. rewrite release_all_sem_value.
    pose proof (filter_length_elem (semaphore e) entries.*2 e) as Hf.
    assert (e ∈ entries.*2).
    { apply list_elem_of_fmap. exists (id, e). split; [reflexivity |].
      now apply elem_of_map_to_list. }
    specialize (Hf H eq_refl). unfold entries in Hf.
    eapply Nat.le_trans; [exact Hf | apply Nat.le_add_l]. }
  split; [unfold s0; simpl; unfold waiters; now rewrite length_fmap |].
  split.
  { intros i. unfold step, s0. simpl. unfold waiters. rewrite list_lookup_fmap.
    destruct (entries !! i) as [[id e] |] eqn:Hi'; [| reflexivity]. simpl.
    assert (He : js_results v !! id = Some e).
    { apply elem_of_map_to_list. eapply list_elem_of_lookup_2. exact Hi'. }
    now rewrite (Hzero id e He). }
  split.
  { rewrite Hs1. simpl. unfold closing_state. rewrite release_all_trace. simpl.
    now rewrite <- app_assoc. }
  split; [now rewrite !length_fmap |].
  split; [rewrite Hs1; exact Hperm |].
  assert (Hpump : default s1 (step L_pump_done s1)
                  = {| world := closed_state self v (closing_state v w);
                       threads := waiters self entries; ui := [] |}).
  { rewrite Hs1. unfold step. simpl. rewrite Hfidle, Hidle. simpl.
    unfold ui_run. rewrite (Hfinish (closing_state v w) v a); [reflexivity | |].
    - now rewrite Hfv.
    - now rewrite Hfi. }
  destruct (closed_state_frame self v (closing_state v w))
    as (Hcv & Hcs & Hcl & _).
  destruct (exec_waiters self entries [] (closed_state self v (closing_state v w))
              (set_destroyed v)) as [w' Hexec].
  { now rewrite Hcv, lookup_alter_eq, Hfv, Hv. }
  { apply NoDup_fst_map_to_list. }
  { exact Hnodup. }
  { intros [id e] Hce. simpl. apply elem_of_map_to_list in Hce. split; [exact Hce |].
    unfold sem_value. rewrite Hcs. apply (Hperm id e Hce). }
  assert (Hs2 : s2 = {| world := w'; threads := outcome (main_level w) <$> entries.*2;
                        ui := [] |}).
  { unfold s2. change (exec (L_pump_done :: ?ls) s1)
      with (exec ls (default s1 (step L_pump_done s1))).
    rewrite Hpump, <- Hlen.
    change (length []) with 0 in Hexec.
    change ([] ++ ?l) with l in Hexec.
    rewrite Hexec, Hcl, Hfl. reflexivity. }
  rewrite Hs2. simpl.
  split; [reflexivity |]. split; [reflexivity |]. split.
  - apply Forall_fmap, Forall_forall. intros e _ c k'. apply outcome_not_blocked.
  - apply Forall_forall. intros e _ Hslot. unfold outcome. rewrite Hslot.
    now destruct (Nat.eqb (main_level w) 0).
Qed.

(** *** File dialogs *)

(** C9, where it fails.  A save dialog the user accepts with the file name
    [path]: what is sent to the caller is [tuple(path)], the tuple of the
    characters of the path, neither the path nor a tuple of paths. *)
Theorem save_dialog_sends_characters (uid : string) (self conn : addr) (directory : string)
    (allow_multiple : bool) (save_filename : string) (file_types : list string)
    (u : UserInput) (path : string) (w : World) :
  instances w !! uid = Some self ->
  response u = RESPONSE_OK ->
  filename u = Some path ->
  run (_create_file_dialog SAVE_DIALOG directory allow_multiple save_filename file_types
         uid conn u) w
  = Done tt (dialog_sent self SAVE_DIALOG directory allow_multiple save_filename conn
               (PyTuple (PyStr <$> str_chars path)) w).
Proof.
  intros Hi Hr Hf. unfold _create_file_dialog, BrowserView_create_file_dialog. simpl.
  rewrite Hi. simpl. rewrite Hr, Hf. simpl.
  unfold dialog_sent, add_trace. simpl. now rewrite <- app_assoc.
Qed.

(** ** Further properties of the backend *)

(** *** Teardown of a view that is no longer registered *)

(** When the uid is no longer in [instances] at the end of the pump (a
    nested teardown of the same view removed it), teardown destroys the
    native window and then raises [KeyError] at [del]: [closed] is not
    set, [windows] is untouched and the main loop is not asked to quit. *)
Theorem close_window_unregistered_raises (self : addr) (v : BrowserView) (w : World) :
  views w !! self = Some v ->
  exists k,
    run (close_window self) w = Pumping k (closing_state v w)
    /\ forall (w2 : World) (v2 : BrowserView),
         views w2 !! self = Some v2 ->
         instances w2 !! uid v2 = None ->
         run k w2
         = Failed (KeyError (PyStr (uid v2)))
             (add_trace [E_window_destroy self] (set_views (alter set_destroyed self) w2)).
Proof.
  intros Hv. eexists. split.
  - unfold close_window. simpl. rewrite Hv. simpl. rewrite run_release_loop. reflexivity.
  - intros w2 v2 Hv2 Hi. simpl. rewrite lookup_alter_eq, Hv2. simpl. now rewrite Hi.
Qed.

(** *** Programmatic destruction *)

(** [destroy_window] in single-process mode only schedules; the scheduled
    callback is teardown itself, whatever handler [__init__] connected
    and whatever the user would answer: a window with [confirm_close] is
    closed without the prompt. *)
Theorem destroy_window_skips_confirmation (uid0 : string) (self : addr) (v : BrowserView)
    (u : UserInput) (w : World) :
  views w !! self = Some v ->
  instances w !! uid0 = Some self ->
  run (_destroy_window uid0) w = Done tt (set_idle (fun q => q ++ [T_destroy_window uid0]) w)
  /\ exists k,
       run (run_task (T_destroy_window uid0) u) w = Pumping k (closing_state v w)
       /\ trace (closing_state v w)
          = trace w ++ E_set (pywebview_window v) Closing
                       :: (E_release <$> (semaphore <$> (map_to_list (js_results v)).*2)).
Proof.
  intros Hv Hi. split; [reflexivity |].
  destruct (close_window_runs self v w Hv) as (k & Hk & _).
  exists k. split.
  - unfold run_task, instances_getitem, get. cbn [bind run]. rewrite Hi. exact Hk.
  - unfold closing_state. rewrite release_all_trace. simpl. now rewrite <- app_assoc.
Qed.

(** *** Commands for a uid that is not registered *)

(** [resize] for an unknown uid returns normally to its caller; the
    [KeyError] is raised later, inside the idle callback, where the UI
    loop reports and drops it.  [evaluate_js] and [get_current_url] look
    the uid up at once and raise [KeyError] to their caller, leaving the
    state as it was. *)
Theorem unknown_uid_errors (uid0 : string) (width height : Z) (script unique_id uri : string)
    (u : UserInput) (s : Sys) :
  instances (world s) !! uid0 = None ->
  idle (world s) = [] ->
  ui_ready s = true ->
  run (_resize width height uid0) (world s)
  = Done tt (set_idle (fun q => q ++ [T_resize width height uid0]) (world s))
  /\ step (L_idle u)
       {| world := set_idle (fun q => q ++ [T_resize width height uid0]) (world s);
          threads := threads s; ui := ui s |}
     = Some {| world := add_trace [E_uncaught (KeyError (PyStr uid0))]
                          (set_idle (fun _ => []) (world s));
               threads := threads s; ui := ui s |}
  /\ run (evaluate_js script uid0 unique_id) (world s) = Failed (KeyError (PyStr uid0)) (world s)
  /\ run (get_current_url uid0 uri) (world s) = Failed (KeyError (PyStr uid0)) (world s).
Proof.
  intros Hi Hidle Hready. split; [reflexivity |]. split; [| split].
  - unfold step. simpl. rewrite Hidle. simpl.
    change (ui_ready _) with (ui_ready s). rewrite Hready.
    unfold ui_run. simpl. rewrite Hi. reflexivity.
  - unfold evaluate_js, instances_getitem, get. cbn [bind run]. now rewrite Hi.
  - unfold get_current_url, instances_getitem, get. cbn [bind run]. now rewrite Hi.
Qed.

(** *** Fullscreen *)

Lemma set_is_fullscreen_back (v : BrowserView) :
  set_is_fullscreen (negb (negb (is_fullscreen v))) (set_is_fullscreen (negb (is_fullscreen v)) v)
  = v.
Proof. destruct v as [a b c d e f g h]. simpl. now rewrite negb_involutive. Qed.

Lemma run_toggle_fullscreen (self : addr) (v : BrowserView) (w : World) :
  views w !! self = Some v ->
  run (BrowserView_toggle_fullscreen self) w
  = Done tt (set_views (alter (set_is_fullscreen (negb (is_fullscreen v))) self)
               (add_trace [E_window_fullscreen self (negb (is_fullscreen v))] w)).
Proof.
  intros Hv. unfold BrowserView_toggle_fullscreen. simpl. rewrite Hv. simpl.
  destruct (is_fullscreen v); reflexivity.
Qed.

(** Toggling fullscreen twice gives the view back as it was, and asks the
    toolkit for the two opposite changes in turn. *)
Theorem toggle_fullscreen_twice (self : addr) (v : BrowserView) (w : World) :
  views w !! self = Some v ->
  exists w2,
    run (BrowserView_toggle_fullscreen self ;; BrowserView_toggle_fullscreen self) w
    = Done tt w2
    /\ views w2 = views w
    /\ trace w2 = trace w ++ [E_window_fullscreen self (negb (is_fullscreen v));
                              E_window_fullscreen self (is_fullscreen v)].
Proof.
  intros Hv. rewrite run_bind, (run_toggle_fullscreen self v w Hv).
  set (v1 := set_is_fullscreen (negb (is_fullscreen v)) v).
  set (w1 := set_views _ _).
  assert (Hv1 : views w1 !! self = Some v1).
  { unfold w1. simpl. now rewrite lookup_alter_eq, Hv. }
  rewrite (run_toggle_fullscreen self v1 w1 Hv1).
  eexists. split; [reflexivity |]. split.
  - simpl. apply map_eq. intros a. destruct (decide (a = self)) as [-> | Hne].
    + rewrite !lookup_alter_eq, Hv. simpl. f_equal. apply set_is_fullscreen_back.
    + now rewrite !lookup_alter_ne by done.
  - simpl. rewrite <- app_assoc. simpl. now rewrite negb_involutive.
Qed.

(** *** Construction *)

(** [__init__] on a window: the view is new, registered under the
    window's uid with an empty table; it connects the close handler, then
    starts the first navigation (the URL when there is one, else the
    markup when it is not empty, else the placeholder page), then goes
    fullscreen when the window asks for it, and does nothing else. *)
Theorem init_first_navigation (window : addr) (win : Window) (bridge_uid default_html : string)
    (w : World) :
  sessions w !! window = Some win ->
  exists self w1 v,
    run (BrowserView_init window bridge_uid default_html) w = Done self w1
    /\ views w !! self = None
    /\ views w1 !! self = Some v
    /\ instances w1 = <[window_uid win := self]> (instances w)
    /\ js_results v = ∅
    /\ is_fullscreen v = fullscreen win
    /\ destroyed v = false
    /\ trace w1
       = trace w
         ++ [E_connect_delete_event self
               (if confirm_close win then H_on_destroy else H_close_window);
             match real_url win with
             | Some url => E_load_uri self url
             | None => if String.eqb (html win) "" then E_load_html self default_html
                       else E_load_html self (html win)
             end]
         ++ (if fullscreen win then [E_window_fullscreen self true] else []).
Proof.
  intros Hw. unfold BrowserView_init. simpl. rewrite Hw. simpl.
  set (self := fresh (dom (views w))).
  assert (Hfresh : views w !! self = None).
  { apply not_elem_of_dom. apply is_fresh. }
  exists self.
  destruct (confirm_close win), (real_url win), (String.eqb (html win) ""),
    (fullscreen win); simpl;
    rewrite ?lookup_alter_eq, ?lookup_insert_eq; simpl;
    rewrite ?lookup_alter_eq, ?lookup_insert_eq; simpl;
    (eexists; eexists; split; [reflexivity |]); simpl;
    rewrite ?lookup_alter_eq, ?lookup_insert_eq; simpl;
    rewrite ?lookup_alter_eq, ?lookup_insert_eq; simpl;
    repeat split; auto; now rewrite <- ?app_assoc.
Qed.

(** *** Titles that are objects *)

Definition decode_failure (title : string) : Event :=
  E_log_debug ("GTK: JSON decode failed:" +:+ newline +:+ " " +:+ title).

(** A title that decodes to an object which is no message of the bridge
    (it has no member [type], or a [type] other than ['eval'] and
    ['invoke'], or ['eval'] under a WebKit that reports results itself)
    is ignored: the callback returns and the state is as before. *)
Theorem on_title_change_ignores_other_objects (self : addr) (title : string)
    (d : list (string * pyval)) (w : World) :
  json_loads title = Ok (PyDict d) ->
  match dict_get "type" d with
  | None => True
  | Some t => py_eq_str t "invoke" = false /\ (py_eq_str t "eval" && old_webkit = false)
  end ->
  run (on_title_change self (Some title)) w = Done tt w.
Proof.
  intros Hj Ht. unfold on_title_change. simpl. rewrite Hj. simpl.
  destruct (dict_get "type" d) as [t |]; simpl; [| reflexivity].
  destruct Ht as [Hinv Hev].
  destruct (py_eq_str t "eval"); simpl in *; rewrite ?Hev, Hinv; reflexivity.
Qed.

(** An [invoke] payload with a member missing: without [function] or
    without [id] the callback raises [KeyError], which it does not catch,
    and the native side is not called; without [param] the native
    function is called with [None]. *)
Theorem invoke_with_missing_member (self : addr) (v : BrowserView) (title : string)
    (d : list (string * pyval)) (w : World) :
  views w !! self = Some v ->
  json_loads title = Ok (PyDict d) ->
  dict_get "type" d = Some (PyStr "invoke") ->
  match dict_get "function" d, dict_get "id" d, dict_get "param" d with
  | None, _, _ =>
    run (on_title_change self (Some title)) w = Failed (KeyError (PyStr "function")) w
  | Some _, None, _ =>
    run (on_title_change self (Some title)) w = Failed (KeyError (PyStr "id")) w
  | Some f, Some id, None =>
    forall r w', run (js_bridge_call (pywebview_window v) f PyNone id) w = Done r w' ->
                 run (on_title_change self (Some title)) w
                 = Done tt (add_trace [E_run_javascript self
                                         (return_val_statement (escape_string (py_str r))) None] w')
  | Some _, Some _, Some _ => True
  end.
Proof.
  intros Hv Hj Ht. unfold on_title_change.
  destruct (dict_get "function" d) as [f |] eqn:Hf;
    [destruct (dict_get "id" d) as [id |] eqn:Hi;
     [destruct (dict_get "param" d) as [p |] eqn:Hp; [exact I |] |] |].
  - intros r w' Hcall. simpl. rewrite Hj. simpl. rewrite Ht, Hf, Hi, Hp. simpl.
    rewrite Hv. simpl. unfold JSBridge_call. simpl.
    rewrite run_try_clauses, run_bind, Hcall. reflexivity.
  - simpl. rewrite Hj. simpl. rewrite Ht, Hf, Hi. reflexivity.
  - simpl. rewrite Hj. simpl. rewrite Ht, Hf. reflexivity.
Qed.

(** The [try] of the callback covers the call of the native function: a
    [ValueError] it raises is taken for a decode failure, logged and
    dropped, and nothing is injected; an exception of another class
    leaves the callback. *)
Theorem invoke_native_error (self : addr) (v : BrowserView) (title : string)
    (d : list (string * pyval)) (f id p : pyval) (e : exn) (w w' : World) :
  views w !! self = Some v ->
  json_loads title = Ok (PyDict d) ->
  dict_get "type" d = Some (PyStr "invoke") ->
  dict_get "function" d = Some f ->
  dict_get "id" d = Some id ->
  dict_get "param" d = Some p ->
  run (js_bridge_call (pywebview_window v) f (if py_eq_str p "undefined" then PyNone else p) id) w
  = Failed e w' ->
  run (on_title_change self (Some title)) w
  = if isinstance e cls_ValueError then Done tt (add_trace [decode_failure title] w')
    else Failed e w'.
Proof.
  intros Hv Hj Ht Hf Hi Hp Hcall.
  unfold on_title_change. simpl. rewrite Hj. simpl. rewrite Ht, Hf, Hi, Hp. simpl.
  rewrite Hv. simpl. unfold JSBridge_call.
  rewrite run_try_clauses, run_bind, Hcall. simpl.
  destruct e; reflexivity.
Qed.

(** *** The legacy transport *)

(** A caller blocked in [acquire()] for the call [unique_id], resumed in a
    state where its semaphore has a permit and its entry holds [e]. *)
Lemma run_waiter (self : addr) (v : BrowserView) (unique_id : string) (sem : addr)
    (e : js_entry) (w : World) :
  views w !! self = Some v ->
  js_results v !! unique_id = Some e ->
  sem_value w sem <> 0 ->
  main_level w <> 0 ->
  run (sem_acquire sem ;; evaluate_js_collect self unique_id) w
  = match decode_result (result_slot e) with
    | Ok r => Done r (set_views (alter (set_js_results (delete unique_id)) self)
                        (set_sems <[sem := pred (sem_value w sem)]> w))
    | Err x => Failed x (set_sems <[sem := pred (sem_value w sem)]> w)
    end.
Proof.
  intros Hv He Hs Hl. unfold sem_acquire. cbn [bind run].
  assert (Hh : holds (C_sem sem) w = true).
  { simpl. now destruct (sem_value w sem). }
  rewrite Hh.
  set (w' := set_sems <[sem := pred (sem_value w sem)]> w).
  change (run _ w) with (run (evaluate_js_collect self unique_id) w').
  rewrite (run_collect self v unique_id w') by exact Hv.
  change (main_level w') with (main_level w).
  destruct (main_level w); [contradiction |]. simpl. now rewrite He.
Qed.

(** Under a WebKit that does not report script results, a title
    [{"type": "eval", "uid": id, "result": r}] for a call in flight
    stores [r] (or [None] when the member is absent) in the entry of the
    call and releases its semaphore once; the caller, resumed, gets what
    [r] decodes to and its entry is gone.  [r] is the decoded member, not
    a string of JSON: when it is a number, decoding raises [TypeError] in
    the caller.  A title for a call id that is not in the table raises
    [KeyError] in the callback and changes nothing. *)
Theorem legacy_eval_title_delivers (self : addr) (v : BrowserView) (title id : string)
    (d : list (string * pyval)) (w : World) :
  old_webkit = true ->
  views w !! self = Some v ->
  main_level w <> 0 ->
  json_loads title = Ok (PyDict d) ->
  dict_get "type" d = Some (PyStr "eval") ->
  dict_get "uid" d = Some (PyStr id) ->
  let r := default PyNone (dict_get "result" d) in
  match js_results v !! id with
  | None => run (on_title_change self (Some title)) w = Failed (KeyError (PyStr id)) w
  | Some e =>
    let w2 := release_one
                (set_views (alter (set_js_results (alter (set_result r) id)) self) w) e in
    run (on_title_change self (Some title)) w = Done tt w2
    /\ sem_value w2 (semaphore e) = S (sem_value w (semaphore e))
    /\ match decode_result r with
       | Ok x =>
         exists w3 v3,
           run (sem_acquire (semaphore e) ;; evaluate_js_collect self id) w2 = Done x w3
           /\ views w3 !! self = Some v3
           /\ js_results v3 = delete id (js_results v)
       | Err x =>
         exists w3, run (sem_acquire (semaphore e) ;; evaluate_js_collect self id) w2
                    = Failed x w3
       end
    /\ (forall z, r = PyInt z ->
                  decode_result r
                  = Err (TypeError "the JSON object must be str, bytes or bytearray, not int"))
  end.
Proof.
  intros Hold Hv Hl Hj Ht Hu r.
  destruct (js_results v !! id) as [e |] eqn:He.
  - intros w2.
    assert (Hsem : sem_value w2 (semaphore e) = S (sem_value w (semaphore e))).
    { unfold w2, release_one, sem_value. simpl. now rewrite lookup_insert_eq. }
    split; [| split; [exact Hsem | split]].
    + unfold on_title_change. simpl. rewrite Hj. simpl. rewrite Ht. simpl.
      rewrite Hold. simpl. rewrite Hu. simpl.
      unfold r. destruct (dict_get "result" d) as [x |]; simpl;
        rewrite Hv; simpl; rewrite He; reflexivity.
    + set (v2 := set_js_results (alter (set_result r) id) v).
      assert (Hv2 : views w2 !! self = Some v2).
      { unfold w2, release_one. simpl. now rewrite lookup_alter_eq, Hv. }
      assert (He2 : js_results v2 !! id = Some (set_result r e)).
      { unfold v2. simpl. now rewrite lookup_alter_eq, He. }
      rewrite (run_waiter self v2 id (semaphore e) (set_result r e) w2 Hv2 He2);
        [| rewrite Hsem; discriminate | exact Hl].
      simpl. destruct (decode_result r) as [x | x].
      * eexists. eexists. split; [reflexivity |]. split.
        -- simpl. rewrite !lookup_alter_eq, Hv. reflexivity.
        -- simpl. apply map_eq. intros i. destruct (decide (i = id)) as [-> | Hne].
           ++ now rewrite !lookup_delete_eq.
           ++ now rewrite !lookup_delete_ne, lookup_alter_ne by done.
      * eexists. reflexivity.
    + intros z ->. reflexivity.
  - unfold on_title_change. simpl. rewrite Hj. simpl. rewrite Ht. simpl.
    rewrite Hold. simpl. rewrite Hu. simpl.
    destruct (dict_get "result" d) as [x |]; simpl; rewrite Hv; simpl; rewrite He; reflexivity.
Qed.

End Gtk.

(** *** The command router *)

(** C6, where it fails.  In single-process mode [move] reads the global
    name [title], which nothing binds: [NameError] is raised, nothing is
    scheduled and the state is as before. *)
Theorem move_single_process_raises (x y : Z) (uid : string) (w : World) :
  run (move false x y uid) w = Failed (NameError "title") w.
Proof. reflexivity. Qed.

(** ** The statements at concrete inputs *)



Lemma teardown_releases_every_waiter_witness :
  views two_calls_world !! 0 = Some two_calls_view
  /\ size (js_results two_calls_view) = 2
  /\ threads
       (exec webkit_modern (api_returns RNone) api_js "" (L_pump_done :: (L_thread <$> seq 0 2))
          (ui_run (close_window 0) []
             (waiters 0 (map_to_list (js_results two_calls_view))) two_calls_world))
     = [T_returned PyNone; T_returned PyNone].
Proof.
  split; [reflexivity |]. split; [reflexivity |].
  assert (Hnodup : NoDup (semaphore <$> (map_to_list (js_results two_calls_view)).*2)).
  { apply (bool_decide_unpack _). vm_compute. exact I. }
  assert (Hzero : forall id e, js_results two_calls_view !! id = Some e ->
                               sem_value two_calls_world (semaphore e) = 0).
  { intros id e He. apply elem_of_map_to_list in He. vm_compute in He.
    apply elem_of_cons in He as [He | He]; [injection He as -> ->; reflexivity |].
    apply elem_of_cons in He as [He | He]; [injection He as -> ->; reflexivity |].
    inversion He. }
  pose proof (teardown_releases_every_waiter webkit_modern (api_returns RNone) api_js ""
                2 0 0 two_calls_view two_calls_world eq_refl eq_refl eq_refl eq_refl
                Hnodup Hzero) as H.
  cbv zeta in H. destruct H as (_ & _ & _ & _ & _ & _ & H & _).
  exact (eq_trans H eq_refl).
Defined.


Lemma close_request_policy_witness :
  sessions loading_world !! 0 = Some master_window
  /\ exists self w1 v,
       run (BrowserView_init 0 "0a1b2c3d" "") loading_world = Done self w1
       /\ views w1 !! self = Some v.
Proof.
  split; [reflexivity |].
  destruct (close_request_policy 0 master_window "0a1b2c3d" "" loading_world eq_refl)
    as (self & w1 & v & H1 & H2 & _).
  exists self, w1, v. split; assumption.
Defined.

Lemma invoke_returns_str_of_value_witness :
  json_loads invoke_title = Ok (PyDict invoke_payload)
  /\ run (on_title_change webkit_modern (api_returns (RStr "ok")) 0 (Some invoke_title))
       loading_world
     = Done tt (add_trace [E_run_javascript 0 (return_val_statement "ok") None] loading_world)
  /\ js_return_val (return_val_statement "ok") = Some (JsStr "ok").
Proof.
  split; [reflexivity |].
  pose proof (invoke_returns_str_of_value webkit_modern (api_returns (RStr "ok")) 0 master_view
                invoke_title invoke_payload (PyStr "f") (PyStr "x1") (PyStr "hello")
                (RStr "ok") loading_world loading_world
                eq_refl eq_refl eq_refl eq_refl eq_refl eq_refl eq_refl) as H.
  cbv zeta in H. destruct H as (H1 & H2 & _). split; [exact H1 | exact H2].
Defined.

(** C7, as stated, fails: the native function returns the number 5 and
    the script side receives the string ["5"]. *)
Lemma invoke_number_comes_back_as_string :
  run (on_title_change webkit_modern (api_returns (RInt 5)) 0 (Some invoke_title)) loading_world
  = Done tt (add_trace [E_run_javascript 0 (return_val_statement "5") None] loading_world)
  /\ js_return_val (return_val_statement "5") = Some (JsStr "5")
  /\ js_of (RInt 5) = Some (JsNum 5)
  /\ JsStr "5" <> JsNum 5.
Proof.
  split; [reflexivity |]. split; [reflexivity |]. split; [reflexivity | discriminate].
Qed.


Lemma on_title_change_non_object_witness :
  json_loads "5" = Ok (PyInt 5)
  /\ run (on_title_change webkit_modern (api_returns RNone) 0 (Some "5")) loading_world
     = Failed (TypeError "argument of type 'int' is not iterable") loading_world.
Proof.
  split; [reflexivity |].
  exact (on_title_change_non_object webkit_modern (api_returns RNone) 0 "5" (PyInt 5)
           loading_world eq_refl).
Defined.

(** C10, as stated, fails: the title [[]] is valid JSON and no object, and
    the callback returns without raising. *)
Lemma on_title_change_array_title_returns :
  json_loads "[]" = Ok (PyList [])
  /\ run (on_title_change webkit_modern (api_returns RNone) 0 (Some "[]")) loading_world
     = Done tt loading_world.
Proof. split; reflexivity. Qed.

Lemma save_dialog_sends_characters_witness :
  instances loading_world !! "master" = Some 0
  /\ run (_create_file_dialog SAVE_DIALOG "/tmp" false "a.txt" [] "master" 7 (accept "/a")) loading_world
     = Done tt (dialog_sent 0 SAVE_DIALOG "/tmp" false "a.txt" 7
                  (PyTuple [PyStr "/"; PyStr "a"]) loading_world).
Proof.
  split; [reflexivity |].
  exact (save_dialog_sends_characters "master" 0 7 "/tmp" false "a.txt" [] (accept "/a") "/a"
           loading_world eq_refl eq_refl eq_refl).
Defined.
